(** * HRMS backend: leave decisions, status reconciliation, attendance counts

    A shallow embedding of [backend/routes/leaves.py], of the
    [list_employees] and [get_attendance] handlers of [backend/routes/hr.py]
    and of the tables of [backend/models.py] they touch.

    Conventions of the embedding:
    - a table is a finite map from primary key to row ([gmap Z row]);
      [Model.query.get(k)] is the lookup, [Model.query.all()] the list of
      bindings;
    - nullable columns are [option]s; [Numeric(4, 1)] columns are integers
      counting tenths of a day; [Date] columns are day ordinals and
      [DateTime] columns are timestamps, both in [Z];
    - Python [str] values are [string]s whose characters are read as the
      code points 0..255;
    - the ORM session is an explicit pair of database states, the persisted
      one and the one the session works on. *)

From Stdlib Require Import ZArith NArith String Ascii List Bool Lia.
From stdpp Require Import base option list gmap strings fin_maps.

Local Open Scope string_scope.
Local Open Scope list_scope.
Local Open Scope Z_scope.

(** ** Python strings *)

Module Py.

(** [str.isspace] on one character, for code points below 256. *)
Definition is_space (c : ascii) : bool :=
  let n := N_of_ascii c in
  ((9 <=? n) && (n <=? 13) || (28 <=? n) && (n <=? 32)
   || (n =? 133) || (n =? 160))%N.

(** [str.lower] on one character, for code points below 256. *)
Definition lower_char (c : ascii) : ascii :=
  let n := N_of_ascii c in
  if ((65 <=? n) && (n <=? 90)
      || (192 <=? n) && (n <=? 222) && negb (n =? 215))%N
  then ascii_of_N (n + 32) else c.

Fixpoint lstrip (l : list ascii) : list ascii :=
  match l with
  | [] => []
  | c :: l' => if is_space c then lstrip l' else l
  end.

Definition rstrip (l : list ascii) : list ascii := rev (lstrip (rev l)).

(** [s.strip()] *)
Definition strip (s : string) : string :=
  string_of_list_ascii (rstrip (lstrip (list_ascii_of_string s))).

(** [s.lower()] *)
Definition lower (s : string) : string :=
  string_of_list_ascii (map lower_char (list_ascii_of_string s)).

(** [s.replace(' ', '-')] *)
Definition replace_space_hyphen (s : string) : string :=
  string_of_list_ascii
    (map (fun c => if Ascii.eqb c " " then "-"%char else c)
         (list_ascii_of_string s)).

(** Truth value of an optional string: [None] and [''] are falsy. *)
Definition truthy (o : option string) : bool :=
  match o with
  | None => false
  | Some s => negb (String.eqb s "")
  end.

(** [a or b] on optional strings. *)
Definition or_else (a b : option string) : option string :=
  if truthy a then a else b.

(** [str(x)] for a string or [None]. *)
Definition str (o : option string) : string := default "None" o.

End Py.

(** ** Tables of [models.py] *)

Module Employee.
Record t := mk {
  employee_code : string;
  first_name : string;
  last_name : string;
  status : option string
}.
Definition set_status (v : option string) (e : t) : t :=
  mk (employee_code e) (first_name e) (last_name e) v.
End Employee.

Module LeaveRequest.
Record t := mk {
  employee_id : Z;
  leave_type_id : Z;
  start_date : Z;
  end_date : Z;
  total_days : Z;
  status : option string;
  approved_by : option Z;
  approved_at : option Z;
  rejection_reason : option string
}.
Definition set_status (v : option string) (r : t) : t :=
  mk (employee_id r) (leave_type_id r) (start_date r) (end_date r)
     (total_days r) v (approved_by r) (approved_at r) (rejection_reason r).
Definition set_approved_by (v : option Z) (r : t) : t :=
  mk (employee_id r) (leave_type_id r) (start_date r) (end_date r)
     (total_days r) (status r) v (approved_at r) (rejection_reason r).
Definition set_approved_at (v : option Z) (r : t) : t :=
  mk (employee_id r) (leave_type_id r) (start_date r) (end_date r)
     (total_days r) (status r) (approved_by r) v (rejection_reason r).
Definition set_rejection_reason (v : option string) (r : t) : t :=
  mk (employee_id r) (leave_type_id r) (start_date r) (end_date r)
     (total_days r) (status r) (approved_by r) (approved_at r) v.
End LeaveRequest.

Module LeaveBalance.
Record t := mk {
  employee_id : Z;
  leave_type_id : Z;
  year : Z;
  total_allocated : option Z;
  used : option Z;
  pending : option Z;
  balance : option Z
}.
End LeaveBalance.

Module Attendance.
Record t := mk {
  employee_id : Z;
  date : Z;
  status : string;
  is_late : option bool;
  is_early_leave : option bool
}.
End Attendance.

(** The database: the four tables the handlers read or write. *)
Record db := mkdb {
  employees : gmap Z Employee.t;
  leave_requests : gmap Z LeaveRequest.t;
  leave_balances : gmap Z LeaveBalance.t;
  attendance : gmap Z Attendance.t
}.

Definition set_employees (v : gmap Z Employee.t) (d : db) : db :=
  mkdb v (leave_requests d) (leave_balances d) (attendance d).

Definition set_leave_requests (v : gmap Z LeaveRequest.t) (d : db) : db :=
  mkdb (employees d) v (leave_balances d) (attendance d).

(** The Flask session: the two keys the handlers read, each holding a value
    or absent. *)
Record session := mksession {
  user_id : option Z;
  role : option string
}.

(** ** Responses *)

Inductive raised :=
| SQLAlchemyError
| NameError (name : string)
| OverflowError.

Record leave_view := mkleave_view {
  lv_id : Z;
  lv_employee_id : Z;
  lv_status : option string;
  lv_approved_by : option Z;
  lv_approved_at : option Z
}.

Record employee_view := mkemployee_view {
  ev_pk : Z;
  ev_id : string;
  ev_name : option string;
  ev_status : string
}.

Record attendance_view := mkattendance_view {
  av_id : string;
  av_name : string;
  av_status : string;
  av_totalLeaves : Z;
  av_lateArrivals : nat;
  av_earlyLeaves : nat
}.

Inductive payload :=
| ErrorBody (error : string)
| LeaveBody (leave : leave_view)
| LeaveRowBody (id : Z) (row : LeaveRequest.t)
| EmployeesBody (out : list employee_view)
| AttendanceBody (out : list attendance_view).

(** [jsonify(payload), code], or an exception no handler of the view catches. *)
Inductive response :=
| Response (body : payload) (code : Z)
| Unhandled (e : raised).

(** ** The ORM session

    [persisted] is what the database holds; [in_session] is the state the
    current request sees, including its own writes that are not committed
    yet.  A request starts with both equal, and only [persisted] outlives
    it. *)

Record store := mkstore {
  persisted : db;
  in_session : db
}.

Inductive result (A : Type) :=
| Value (a : A)
| Raise (e : raised).
Arguments Value {A} a.
Arguments Raise {A} e.

Definition orm (A : Type) : Type := store -> result A * store.

#[export] Instance orm_ret : MRet orm := fun A a st => (Value a, st).

#[export] Instance orm_bind : MBind orm := fun A B f m st =>
  match m st with
  | (Value a, st') => f a st'
  | (Raise e, st') => (Raise e, st')
  end.

(** The calls of [leave_detail] that reach the database and so may raise
    [SQLAlchemyError].  [Reload] is the SELECT behind the attribute reads of
    line 43: [db = SQLAlchemy()] keeps [expire_on_commit], so after the
    commit the first read of [lr] loads the row again. *)
Inductive db_call :=
| GetLeaveRequest
| GetEmployee
| Commit
| Reload.

(** SQLite integers end at [2^63 - 1]. *)
Definition sqlite_max_integer : Z := 9223372036854775807.

Section Session.

(** Which database calls fail during the request. *)
Variable fails : db_call -> bool.

(** [LeaveRequest.query.get(k)] for the [k] of the URL, which
    [<int:leave_id>] lets be any natural number.  A key of a row is a SQLite
    integer; a [k] beyond [sqlite_max_integer] is the key of no row, and
    binding it raises [OverflowError], which is no [SQLAlchemyError]. *)
Definition get_leave_request (k : Z) : orm (option LeaveRequest.t) :=
  fun st =>
    if fails GetLeaveRequest then (Raise SQLAlchemyError, st)
    else
      match leave_requests (in_session st) !! k with
      | Some row => (Value (Some row), st)
      | None =>
        if sqlite_max_integer <? k then (Raise OverflowError, st)
        else (Value None, st)
      end.

(** [Employee.query.get(k)] for the [k] stored in a row, a SQLite
    integer. *)
Definition get_employee (k : Z) : orm (option Employee.t) :=
  fun st =>
    if fails GetEmployee then (Raise SQLAlchemyError, st)
    else (Value (employees (in_session st) !! k), st).

(** An attribute assignment on a loaded [LeaveRequest] object. *)
Definition assign_leave_request (k : Z) (f : LeaveRequest.t -> LeaveRequest.t)
  : orm unit :=
  fun st =>
    (Value tt,
     mkstore (persisted st)
       (set_leave_requests (alter f k (leave_requests (in_session st)))
                           (in_session st))).

(** An attribute assignment on a loaded [Employee] object. *)
Definition assign_employee (k : Z) (f : Employee.t -> Employee.t) : orm unit :=
  fun st =>
    (Value tt,
     mkstore (persisted st)
       (set_employees (alter f k (employees (in_session st)))
                      (in_session st))).

(** The row a SELECT by key returns. *)
Definition read_leave_request (k : Z) : orm (option LeaveRequest.t) :=
  fun st => (Value (leave_requests (in_session st) !! k), st).

(** The reads of [lr.id], [lr.employee_id], ... after the commit: the
    object is expired, so the first read loads the row again. *)
Definition reload_leave_request (k : Z) : orm (option LeaveRequest.t) :=
  fun st =>
    if fails Reload then (Raise SQLAlchemyError, st)
    else (Value (leave_requests (in_session st) !! k), st).

(** [db.session.commit()] *)
Definition commit : orm unit :=
  fun st =>
    if fails Commit then (Raise SQLAlchemyError, st)
    else (Value tt, mkstore (in_session st) (in_session st)).

(** [db.session.rollback()] *)
Definition rollback : orm unit :=
  fun st => (Value tt, mkstore (persisted st) (persisted st)).

(** [try: body except SQLAlchemyError: handler]; any other exception
    passes through. *)
Definition try_except {A} (body : orm A) (handler : orm A) : orm A :=
  fun st =>
    match body st with
    | (Raise SQLAlchemyError, st') => handler st'
    | r => r
    end.

End Session.

(** ** [routes/leaves.py] *)

Inductive http_method := GET | PATCH.

(** The JSON body of a PATCH as the view reads it
    ([request.get_json(silent=True) or {}] and its two [data.get] calls),
    for a body that is a JSON object, or is missing or no JSON at all, and
    in which each of the two keys holds a string or is absent or null.
    Bodies of another shape (a value for a key that is no string, a body
    that is an array or a scalar) are outside the embedding. *)
Record patch_data := mkpatch_data {
  data_status : option string;
  data_rejection_reason : option string
}.

(** The names bound at module level in [leaves.py], by its imports and its
    two definitions.  [text] is not among them, and is no Python builtin. *)
Definition module_globals : list string :=
  ["Blueprint"; "request"; "jsonify"; "session"; "db"; "LeaveRequest";
   "Employee"; "datetime"; "SQLAlchemyError"; "leaves_bp"; "leave_detail"].

(** Evaluation of a global name: [NameError] when it is unbound. *)
Definition global_name (name : string) : orm unit :=
  fun st =>
    if bool_decide (name ∈ module_globals) then (Value tt, st)
    else (Raise (NameError name), st).

(** The tuple of line 23. *)
Definition allowed_status : list string := ["approved"; "rejected"; "pending"].

(** The test of line 23:
    [not status or str(status).strip().lower() not in (...)]. *)
Definition invalid_status (status : option string) : bool :=
  negb (Py.truthy status)
  || negb (bool_decide (Py.lower (Py.strip (Py.str status)) ∈ allowed_status)).

Section LeaveDetail.

Variable fails : db_call -> bool.
Variable sess : session.
(** [datetime.utcnow()] *)
Variable utcnow : Z.

(** Lines 12-18. *)
Definition leave_detail_get (leave_id : Z) : orm response :=
  global_name "text";;
  row ← read_leave_request leave_id;
  match row with
  | None => mret (Response (ErrorBody "Leave request not found") 404)
  | Some r => mret (Response (LeaveRowBody leave_id r) 200)
  end.

(** Lines 28-43, the body of the [try]. *)
Definition leave_detail_try (leave_id : Z) (status : string)
    (data : patch_data) : orm response :=
  lr ← get_leave_request fails leave_id;
  match lr with
  | None => mret (Response (ErrorBody "Leave request not found") 404)
  | Some lr0 =>
    assign_leave_request leave_id (LeaveRequest.set_status (Some status));;
    (if decide (status = "approved") then
       assign_leave_request leave_id
         (LeaveRequest.set_approved_at (Some utcnow));;
       assign_leave_request leave_id
         (LeaveRequest.set_approved_by (user_id sess));;
       emp ← get_employee fails (LeaveRequest.employee_id lr0);
       match emp with
       | Some _ =>
         assign_employee (LeaveRequest.employee_id lr0)
           (Employee.set_status (Some "on-leave"))
       | None => mret tt
       end
     else if decide (status = "rejected") then
       assign_leave_request leave_id
         (LeaveRequest.set_rejection_reason
            (Py.or_else (data_rejection_reason data)
                        (LeaveRequest.rejection_reason lr0)))
     else mret tt);;
    commit fails;;
    lr1 ← reload_leave_request fails leave_id;
    let r := default lr0 lr1 in
    mret (Response
            (LeaveBody
               (mkleave_view leave_id (LeaveRequest.employee_id r)
                  (LeaveRequest.status r) (LeaveRequest.approved_by r)
                  (LeaveRequest.approved_at r)))
            200)
  end.

(** Lines 44-46, the [except] clause. *)
Definition leave_detail_except : orm response :=
  rollback;;
  mret (Response (ErrorBody "Database error") 500).

(** Lines 21-46. *)
Definition leave_detail_patch (leave_id : Z) (data : patch_data)
    : orm response :=
  let status := data_status data in
  if invalid_status status then
    mret (Response
            (ErrorBody
               "Invalid or missing status. Allowed: approved, rejected, pending")
            400)
  else
    let status := Py.lower (Py.strip (Py.str status)) in
    try_except (leave_detail_try leave_id status data) leave_detail_except.

(** The view function.  It runs in a session opened on the database [d];
    the database after the request is what the session has persisted. *)
Definition leave_detail (method : http_method) (leave_id : Z)
    (data : patch_data) (d : db) : response * db :=
  let view :=
    match method with
    | GET => leave_detail_get leave_id
    | PATCH => leave_detail_patch leave_id data
    end in
  match view (mkstore d d) with
  | (Value r, st) => (r, persisted st)
  | (Raise e, st) => (Unhandled e, persisted st)
  end.

End LeaveDetail.

(** ** [routes/hr.py]

    The views of [hr.py] have no exception handler; the embedding follows
    them on queries that succeed.  Columns the views only copy into the
    JSON output (department, position, e-mail, phone, joining date, shift,
    check-in time) are left out of the rows and of the output; so are the
    time stamps [created_at] and [updated_at] of every table, of which
    [updated_at] is set anew by each UPDATE of a row ([onupdate]).  What is
    said below of a row is said of the columns it has here. *)

(** [hr_required()] *)
Definition hr_required (sess : session) : bool :=
  bool_decide (is_Some (user_id sess))
  && bool_decide (Py.lower (default "" (role sess)) = "hr").

(** The filter of line 148:
    [status == 'approved', start_date <= today, end_date >= today]. *)
Definition approved_covering (today : Z) (lr : LeaveRequest.t) : bool :=
  bool_decide (LeaveRequest.status lr = Some "approved")
  && (LeaveRequest.start_date lr <=? today)
  && (today <=? LeaveRequest.end_date lr).

(** The set comprehension of line 148. *)
Definition on_leave_ids (today : Z) (d : db) : gset Z :=
  list_to_set
    (LeaveRequest.employee_id
       <$> filter (fun lr => approved_covering today lr = true)
                  (map_to_list (leave_requests d)).*2).

(** The state of the loop of [list_employees]: the employee objects of the
    session, the output list and the [to_update] flag. *)
Record listing := mklisting {
  session_employees : gmap Z Employee.t;
  out : list employee_view;
  to_update : bool
}.

(** Line 151. *)
Definition display_name (e : Employee.t) : option string :=
  if Py.truthy (Some (Employee.first_name e))
     || Py.truthy (Some (Employee.last_name e))
  then Some (Employee.first_name e +:+ " " +:+ Employee.last_name e)
  else None.

(** One iteration of the loop, lines 151-180, on the employee [e] of
    primary key [eid]. *)
Definition list_employees_step (ids : gset Z) (acc : listing)
    (row : Z * Employee.t) : listing :=
  let '(eid, e) := row in
  let name := display_name e in
  if decide (eid ∈ ids) then
    let status_out := "on-leave" in
    let view := mkemployee_view eid (Employee.employee_code e) name status_out in
    if decide (Employee.status e ≠ Some "on-leave") then
      mklisting
        (<[eid := Employee.set_status (Some "on-leave") e]>
           (session_employees acc))
        (out acc ++ [view]) true
    else mklisting (session_employees acc) (out acc ++ [view]) (to_update acc)
  else
    let status_out :=
      Py.replace_space_hyphen
        (Py.lower (Py.str (Py.or_else (Employee.status e) (Some "active")))) in
    let view := mkemployee_view eid (Employee.employee_code e) name status_out in
    if decide (Employee.status e = Some "on-leave" ∧ eid ∉ ids) then
      mklisting
        (<[eid := Employee.set_status (Some "active") e]>
           (session_employees acc))
        (out acc ++ [view]) true
    else mklisting (session_employees acc) (out acc ++ [view]) (to_update acc).

(** Lines 144-180: the queries and the loop. *)
Definition list_employees_loop (today : Z) (d : db) : listing :=
  foldl (list_employees_step (on_leave_ids today d))
        (mklisting (employees d) [] false)
        (map_to_list (employees d)).

(** The view function; [today] is [date.today()]. *)
Definition list_employees (sess : session) (today : Z) (d : db)
    : response * db :=
  if negb (hr_required sess) then (Response (ErrorBody "Unauthorized") 401, d)
  else
    let l := list_employees_loop today d in
    (Response (EmployeesBody (out l)) 200,
     if to_update l then set_employees (session_employees l) d else d).

(** SQL [a + b]: null when either operand is. *)
Definition sql_add (a b : option Z) : option Z :=
  x ← a; y ← b; Some (x + y).

(** SQL [sum]: nulls are skipped, and the sum of no value is null. *)
Definition sql_sum (l : list (option Z)) : option Z :=
  match omap id l with
  | [] => None
  | x :: xs => Some (foldl Z.add x xs)
  end.

(** [query.filter(...).count()] over the rows of a table. *)
Definition count_where {A} (P : A -> bool) (table : gmap Z A) : nat :=
  length (filter (fun row => P row = true) (map_to_list table).*2).

Section Attendance.

(** [date.year], from the calendar of the [datetime] library. *)
Variable year_of : Z -> Z.

(** Lines 215-247: the output for one of today's records, or nothing when
    the record has no employee. *)
Definition attendance_row (today : Z) (d : db) (r : Attendance.t)
    : option attendance_view :=
  let one_year_ago := today - 365 in
  emp ← employees d !! Attendance.employee_id r;
  let emp_id := Attendance.employee_id r in
  let lb_sum :=
    default 0
      (sql_sum
         ((fun b => sql_add (LeaveBalance.used b) (LeaveBalance.pending b))
            <$> filter (fun b => LeaveBalance.employee_id b = emp_id
                                 ∧ LeaveBalance.year b = year_of today)
                       (map_to_list (leave_balances d)).*2)) in
  let late_count :=
    count_where
      (fun a => bool_decide (Attendance.employee_id a = emp_id)
                && (one_year_ago <=? Attendance.date a)
                && bool_decide (Attendance.is_late a = Some true))
      (attendance d) in
  let early_count :=
    count_where
      (fun a => bool_decide (Attendance.employee_id a = emp_id)
                && (one_year_ago <=? Attendance.date a)
                && bool_decide (Attendance.is_early_leave a = Some true))
      (attendance d) in
  Some (mkattendance_view (Employee.employee_code emp)
          (Employee.first_name emp +:+ " " +:+ Employee.last_name emp)
          (Attendance.status r) lb_sum late_count early_count).

(** The view function; [today] is [date.today()]. *)
Definition get_attendance (sess : session) (today : Z) (d : db)
    : response * db :=
  if negb (hr_required sess) then (Response (ErrorBody "Unauthorized") 401, d)
  else
    let records :=
      filter (fun r => Attendance.date r = today)
             (map_to_list (attendance d)).*2 in
    (Response (AttendanceBody (omap (attendance_row today d) records)) 200, d).

End Attendance.

(** ** Vocabulary of the properties *)

#[export] Instance employee_eq_dec : EqDecision Employee.t.
Proof. solve_decision. Defined.

(** The four answers of the PATCH branch.  In the words of the design
    notes, the 400 answer is [ValidationError], the 404 answer [NotFound]
    and the 500 answer the surfaced database failure. *)
Definition validation_error : response :=
  Response
    (ErrorBody "Invalid or missing status. Allowed: approved, rejected, pending")
    400.

Definition not_found : response :=
  Response (ErrorBody "Leave request not found") 404.

Definition database_error : response :=
  Response (ErrorBody "Database error") 500.

Definition leave_ok (k : Z) (r : LeaveRequest.t) : response :=
  Response
    (LeaveBody
       (mkleave_view k (LeaveRequest.employee_id r) (LeaveRequest.status r)
          (LeaveRequest.approved_by r) (LeaveRequest.approved_at r)))
    200.

(** A request during which every database call succeeds. *)
Definition no_failure (_ : db_call) : bool := false.

(** The decision a PATCH body carries, as line 25 computes it. *)
Definition normalized (data : patch_data) : string :=
  Py.lower (Py.strip (Py.str (data_status data))).

(** One call of the view, and a sequence of calls served one after the
    other. *)
Record request := mkrequest {
  rq_fails : db_call -> bool;
  rq_session : session;
  rq_utcnow : Z;
  rq_method : http_method;
  rq_leave_id : Z;
  rq_data : patch_data
}.

Definition serve (d : db) (rq : request) : db :=
  (leave_detail (rq_fails rq) (rq_session rq) (rq_utcnow rq) (rq_method rq)
     (rq_leave_id rq) (rq_data rq) d).2.

Definition serve_all (rqs : list request) (d : db) : db := foldl serve d rqs.

(** The ledger equation on one [LeaveBalance] row. *)
Definition ledger_row_ok (b : LeaveBalance.t) : bool :=
  match LeaveBalance.total_allocated b, LeaveBalance.used b,
        LeaveBalance.pending b, LeaveBalance.balance b with
  | Some a, Some u, Some p, Some r =>
    (r =? a - u - p) && (0 <=? u) && (0 <=? p) && (0 <=? r)
  | _, _, _, _ => false
  end.

Definition ledger_ok (d : db) : Prop :=
  map_Forall (fun _ b => ledger_row_ok b = true) (leave_balances d).

(** A decision value, read up to surrounding whitespace and letter case. *)
Definition all_space (l : list ascii) : Prop :=
  Forall (fun c => Py.is_space c = true) l.

Definition names_status (s w : string) : Prop :=
  exists pre core post,
    list_ascii_of_string s = pre ++ core ++ post
    /\ all_space pre /\ all_space post
    /\ map Py.lower_char core = list_ascii_of_string w.

Definition decision_allowed (o : option string) : Prop :=
  exists s w, o = Some s /\ w ∈ allowed_status /\ names_status s w.

(** A list of characters that starts with one that is no whitespace. *)
Definition head_black (l : list ascii) : bool :=
  match l with
  | [] => false
  | c :: _ => negb (Py.is_space c)
  end.

(** A database call that the PATCH of request [k] reaches fails. *)
Definition reaches_failure (fails : db_call -> bool) (data : patch_data)
    (k : Z) (d : db) : Prop :=
  fails GetLeaveRequest = true
  \/ exists lr, leave_requests d !! k = Some lr
       /\ (fails Commit = true
           \/ (normalized data = "approved" /\ fails GetEmployee = true)).

(** Employee [eid] has an approved leave request that covers [today]. *)
Definition covered (today eid : Z) (d : db) : Prop :=
  exists k lr, leave_requests d !! k = Some lr
    /\ LeaveRequest.employee_id lr = eid
    /\ LeaveRequest.status lr = Some "approved"
    /\ LeaveRequest.start_date lr <= today <= LeaveRequest.end_date lr.

(** What one iteration of the loop of [list_employees] leaves in the
    session for employee [eid]. *)
Definition reconciled (ids : gset Z) (eid : Z) (e : Employee.t) : Employee.t :=
  if decide (eid ∈ ids) then
    if decide (Employee.status e = Some "on-leave") then e
    else Employee.set_status (Some "on-leave") e
  else
    if decide (Employee.status e = Some "on-leave")
    then Employee.set_status (Some "active") e else e.

(** The rows of the trailing window that carry a flag: those of employee
    [eid] dated [since] or later. *)
Definition flagged_since (flag : Attendance.t -> option bool) (eid since : Z)
    (d : db) : gmap Z Attendance.t :=
  filter (fun kv : Z * Attendance.t =>
            Attendance.employee_id kv.2 = eid
            /\ since <= Attendance.date kv.2
            /\ flag kv.2 = Some true)
         (attendance d).

(** ** Sample data

    Dates are proleptic Gregorian ordinals: 739047 is 2024-06-10. *)

Definition hr_session : session := mksession (Some 5) (Some "HR").

Definition asha : Employee.t := Employee.mk "EMP001" "Asha" "Rao" (Some "active").

Definition ravi : Employee.t :=
  Employee.mk "EMP002" "Ravi" "Iyer" (Some "inactive").

(** Three days of leave, 2024-06-10 to 2024-06-12, waiting for a decision. *)
Definition june_leave : LeaveRequest.t :=
  LeaveRequest.mk 1 1 739047 739049 30 (Some "pending") None None None.

(** The same request once approved by user 5. *)
Definition june_leave_approved : LeaveRequest.t :=
  LeaveRequest.mk 1 1 739047 739049 30 (Some "approved") (Some 5)
    (Some 1717400000) None.

(** 12 days allocated, 3 of them pending. *)
Definition annual_2024 : LeaveBalance.t :=
  LeaveBalance.mk 1 1 2024 (Some 120) (Some 0) (Some 30) (Some 90).

Definition office : db :=
  mkdb {[1 := asha; 2 := ravi]} {[7 := june_leave]} {[1 := annual_2024]}
       {[1 := Attendance.mk 1 739047 "late" (Some true) (Some false);
         2 := Attendance.mk 1 739000 "present" (Some true) (Some true);
         3 := Attendance.mk 1 738000 "late" (Some true) None;
         4 := Attendance.mk 2 739047 "present" None (Some true)]}.

Definition office_decided : db :=
  set_leave_requests {[7 := june_leave_approved]} office.

Definition approve : patch_data := mkpatch_data (Some " Approved ") None.

Definition reject : patch_data :=
  mkpatch_data (Some "rejected") (Some "team is short-staffed").

Definition reopen : patch_data := mkpatch_data (Some "PENDING") None.

(** ** More of [routes/hr.py]: [get_hr_user], [hr_stats], [create_employee]

    These views read tables the views above do not: [users],
    [departments] and [candidate_profiles].  Each is passed beside the
    database.  [get_hr_user] and [hr_stats] only query, so they are
    functions of what they read. *)

Module User.
Record t := mk {
  role : string;
  name : string;
  email : string
}.
End User.

Module Department.
Record t := mk {
  name : string;
  color : option string
}.
End Department.

Module CandidateProfile.
Record t := mk {
  user_id : option Z
}.
End CandidateProfile.

(** A scalar of a JSON body. *)
Inductive jval :=
| JNull
| JNum (n : Z)
| JStr (s : string).

Inductive hr_raised :=
| KeyError (key : string)
| TypeError (keyword : string)
| IntegrityError.

Inductive hr_payload :=
| HrError (error : string)
| UserBody (id : Z) (user : User.t)
| StatsBody (totalEmployees presentToday onLeave departments : nat)
| CreatedBody (message : string) (employee_id : Z).

Inductive hr_response :=
| HrResponse (body : hr_payload) (code : Z)
| HrUnhandled (e : hr_raised).

(** [get_hr_user]: [User.query.filter_by(role='hr').first()].  The view
    checks no session.  Without [ORDER BY] the row that comes first is the
    database's choice; here it is the first binding of the table. *)
Definition get_hr_user (users : gmap Z User.t) : hr_response :=
  match filter (fun kv : Z * User.t => User.role kv.2 = "hr")
               (map_to_list users) with
  | [] => HrResponse (HrError "No HR user found") 404
  | (uid, user) :: _ => HrResponse (UserBody uid user) 200
  end.

(** [hr_stats]; [today] is [date.today()]. *)
Definition hr_stats (sess : session) (today : Z)
    (departments : gmap Z Department.t) (d : db) : hr_response :=
  if negb (hr_required sess) then HrResponse (HrError "Unauthorized") 401
  else
    let total_employees := size (employees d) in
    let present_today :=
      count_where
        (fun a => bool_decide (Attendance.date a = today)
                  && bool_decide (Attendance.status a = "present"))
        (attendance d) in
    let on_leave := count_where (approved_covering today) (leave_requests d) in
    let dept_count := size departments in
    HrResponse (StatsBody total_employees present_today on_leave dept_count)
               200.

(** What [hasattr(Employee, k)] accepts among keywords: the columns and
    relationships of the class [Employee] of [models.py] and the backrefs
    that [User], [Department], [Employee], [Transfer] and [Attendance]
    declare on it. *)
Definition employee_attributes : list string :=
  ["id"; "user_id"; "employee_code"; "first_name"; "last_name"; "email";
   "phone"; "date_of_birth"; "gender"; "address"; "department_id";
   "department"; "position"; "employment_type"; "shift_id"; "manager_id";
   "status"; "joining_date"; "termination_date"; "basic_salary";
   "created_at"; "updated_at"; "department_obj"; "shift"; "manager";
   "user"; "headed_department"; "subordinates"; "transfers";
   "attendance_records"].

(** The columns of [Employee] declared [nullable=False] that have no
    default and are not the primary key. *)
Definition employee_not_null : list string :=
  ["employee_code"; "first_name"; "last_name"; "email"; "department_id";
   "position"].

(** The constructor of a declarative class: the first keyword that is no
    attribute of the class raises [TypeError]. *)
Definition invalid_keyword (attributes : list string)
    (kwargs : list (string * jval)) : option string :=
  head (filter (fun k => k ∉ attributes) kwargs.*1).

(** A [NOT NULL] column is given a value by the keywords. *)
Definition supplied (kwargs : list (string * jval)) (column : string) : bool :=
  match list_find (fun kv : string * jval => kv.1 = column) kwargs with
  | Some (_, (_, JNull)) | None => false
  | Some _ => true
  end.

Section CreateEmployee.

(** How the primary-key lookup reads a JSON scalar that is not null. *)
Variable pk_of_json : jval -> option Z.
(** [db.session.add(employee); db.session.commit()] for an object that the
    database accepts: the new primary key and the database with the row. *)
Variable insert_employee : list (string * jval) -> db -> Z * db.

(** [CandidateProfile.query.get(data.get('candidate_id'))] *)
Definition get_candidate (data : gmap string jval)
    (candidates : gmap Z CandidateProfile.t) : option CandidateProfile.t :=
  match data !! "candidate_id" with
  | None | Some JNull => None
  | Some v => k ← pk_of_json v; candidates !! k
  end.

(** [data[key]] *)
Definition subscript (data : gmap string jval) (key : string)
    : hr_raised + jval :=
  match data !! key with
  | None => inl (KeyError key)
  | Some v => inr v
  end.

(** Lines 78-86: the keyword arguments, evaluated left to right. *)
Definition employee_kwargs (candidate : CandidateProfile.t)
    (data : gmap string jval) : hr_raised + list (string * jval) :=
  match subscript data "employee_code" with
  | inl e => inl e
  | inr employee_code =>
  match subscript data "department" with
  | inl e => inl e
  | inr department =>
  match subscript data "designation" with
  | inl e => inl e
  | inr designation =>
  match subscript data "pay_grade" with
  | inl e => inl e
  | inr pay_grade =>
  match subscript data "date_of_joining" with
  | inl e => inl e
  | inr date_of_joining =>
    inr [("user_id", from_option JNum JNull (CandidateProfile.user_id candidate));
         ("employee_code", employee_code);
         ("department", department);
         ("designation", designation);
         ("pay_grade", pay_grade);
         ("date_of_joining", date_of_joining);
         ("status", JStr "active")]
  end end end end end.

(** The view function, for a JSON body that is an object. *)
Definition create_employee (sess : session) (data : gmap string jval)
    (candidates : gmap Z CandidateProfile.t) (d : db) : hr_response * db :=
  if negb (hr_required sess) then (HrResponse (HrError "Unauthorized") 401, d)
  else
    match get_candidate data candidates with
    | None => (HrResponse (HrError "Candidate not found") 404, d)
    | Some candidate =>
      match employee_kwargs candidate data with
      | inl e => (HrUnhandled e, d)
      | inr kwargs =>
        match invalid_keyword employee_attributes kwargs with
        | Some k => (HrUnhandled (TypeError k), d)
        | None =>
          if forallb (supplied kwargs) employee_not_null then
            let '(employee_id, d') := insert_employee kwargs d in
            (HrResponse (CreatedBody "Employee created successfully"
                           employee_id) 201, d')
          else (HrUnhandled IntegrityError, d)
        end
      end
    end.

End CreateEmployee.

(** ** Vocabulary of the further properties *)

(** Every leave request carries one of the three statuses of line 23. *)
Definition statuses_known (d : db) : Prop :=
  map_Forall
    (fun _ lr => exists w, LeaveRequest.status lr = Some w /\ w ∈ allowed_status)
    (leave_requests d).

(** The entries of the answer of [list_employees]. *)
Definition listed (r : response) : list employee_view :=
  match r with
  | Response (EmployeesBody l) _ => l
  | _ => []
  end.

(** The status [list_employees] reports for a row that no approved leave
    covers (line 166). *)
Definition status_out (e : Employee.t) : string :=
  Py.replace_space_hyphen
    (Py.lower (Py.str (Py.or_else (Employee.status e) (Some "active")))).

(** The entry [list_employees] puts out for the row [e] of key [eid]. *)
Definition entry_of (ids : gset Z) (row : Z * Employee.t) : employee_view :=
  mkemployee_view row.1 (Employee.employee_code row.2) (display_name row.2)
    (if decide (row.1 ∈ ids) then "on-leave" else status_out row.2).

(** The employees whose stored status is on-leave. *)
Definition stored_on_leave (d : db) : gmap Z Employee.t :=
  filter (fun kv : Z * Employee.t => Employee.status kv.2 = Some "on-leave")
         (employees d).

(** The entries of the answer of [get_attendance]. *)
Definition attendance_listed (r : response) : list attendance_view :=
  match r with
  | Response (AttendanceBody l) _ => l
  | _ => []
  end.

(** The keys of the JSON body that [create_employee] subscripts. *)
Definition create_employee_keys : list string :=
  ["employee_code"; "department"; "designation"; "pay_grade";
   "date_of_joining"].

(** The [onLeave] figure of an answer of [hr_stats]. *)
Definition on_leave_figure (r : hr_response) : option nat :=
  match r with
  | HrResponse (StatsBody _ _ n _) _ => Some n
  | _ => None
  end.

(** ** Further sample data *)

(** Leave of the inactive employee, 2024-06-23 to 2024-06-25. *)
Definition ravi_leave : LeaveRequest.t :=
  LeaveRequest.mk 2 1 739060 739062 30 (Some "pending") None None None.

Definition office_with_ravi_leave : db :=
  set_leave_requests {[7 := june_leave; 9 := ravi_leave]} office.

(** The office with a stale on-leave status and no approved request. *)
Definition office_stale : db :=
  set_employees {[1 := Employee.set_status (Some "on-leave") asha; 2 := ravi]}
                office.

Definition staff : gmap Z User.t :=
  {[5 := User.mk "HR" "Meera" "meera@example.org";
    6 := User.mk "hr" "Kiran" "kiran@example.org";
    8 := User.mk "candidate" "Dev" "dev@example.org"]}.

Definition new_hire : gmap string jval :=
  {["candidate_id" := JNum 3; "employee_code" := JStr "EMP003";
    "department" := JStr "Finance"; "designation" := JStr "Analyst";
    "pay_grade" := JStr "B2"; "date_of_joining" := JStr "2024-07-01"]}.

(** ** [scripts/ensure_db_columns.py]

    The script sees the SQLite database as tables with their columns, in
    order.  SQLite compares the names of tables and columns without regard
    to the case of ASCII letters; the [in] of [has_column] compares
    exactly. *)

Module Sqlite.

Definition fold_case (c : ascii) : ascii :=
  let n := N_of_ascii c in
  if ((65 <=? n) && (n <=? 90))%N then ascii_of_N (n + 32) else c.

Definition same_name (a b : string) : bool :=
  bool_decide (map fold_case (list_ascii_of_string a)
               = map fold_case (list_ascii_of_string b)).

Definition schema : Type := list (string * list string).

(** The column names that [PRAGMA table_info(table)] returns: none for a
    table that does not exist. *)
Fixpoint table_info (s : schema) (table : string) : list string :=
  match s with
  | [] => []
  | (t, columns) :: s' =>
    if same_name t table then columns else table_info s' table
  end.

(** The entry that SQLite finds under the name [table]. *)
Fixpoint find_table (s : schema) (table : string)
    : option (string * list string) :=
  match s with
  | [] => None
  | (t, columns) :: s' =>
    if same_name t table then Some (t, columns) else find_table s' table
  end.

Section AddColumn.

(** The further grounds on which SQLite refuses to add a column to an
    entry that exists and has no column of that name: the entry is a view,
    it has the limit of columns already, it has a hidden column of that
    name.  They are not read off the visible columns, so they are taken as
    given, by the name of the entry, its columns and the new column. *)
Variable also_refused : string -> list string -> string -> bool.

(** [ALTER TABLE table ADD COLUMN column TEXT]; [None] stands for the
    [OperationalError] of a refusal: a missing table, a duplicate column
    name or one of the further grounds. *)
Fixpoint add_column (s : schema) (table column : string) : option schema :=
  match s with
  | [] => None
  | (t, columns) :: s' =>
    if same_name t table then
      if existsb (same_name column) columns || also_refused t columns column
      then None
      else Some ((t, columns ++ [column]) :: s')
    else s'' ← add_column s' table column; Some ((t, columns) :: s'')
  end.

End AddColumn.

End Sqlite.

(** [has_column] *)
Definition has_column (s : Sqlite.schema) (table column : string) : bool :=
  bool_decide (column ∈ Sqlite.table_info s table).

Inductive script_end :=
| Finished (changes : list string)
| OperationalError.

Section EnsureDbColumns.

Variable also_refused : string -> list string -> string -> bool.

(** One of the two [if not has_column(...)] blocks: the statement runs
    outside a transaction, so what it adds stays when a later statement
    raises. *)
Definition ensure_column (table column : string)
    (st : list string * Sqlite.schema) : option (list string * Sqlite.schema) :=
  let '(changes, s) := st in
  if negb (has_column s table column) then
    s' ← Sqlite.add_column also_refused s table column;
    Some (changes ++ [table +:+ "." +:+ column], s')
  else Some (changes, s).

(** The script, from the first [has_column] to [conn.commit()]. *)
Definition ensure_db_columns (s : Sqlite.schema) : script_end * Sqlite.schema :=
  match ensure_column "employees" "department" ([], s) with
  | None => (OperationalError, s)
  | Some (changes, s1) =>
    match ensure_column "departments" "color" (changes, s1) with
    | None => (OperationalError, s1)
    | Some (changes', s2) => (Finished changes', s2)
    end
  end.

End EnsureDbColumns.

(** The script has to add [column] to [table] and SQLite refuses: the
    table is missing, it has the column in another spelling, or one of the
    further grounds holds. *)
Definition blocked (also_refused : string -> list string -> string -> bool)
    (s : Sqlite.schema) (table column : string) : Prop :=
  has_column s table column = false
  /\ match Sqlite.find_table s table with
     | None => True
     | Some (t, columns) =>
       existsb (Sqlite.same_name column) columns = true
       \/ also_refused t columns column = true
     end.

(** No further ground: what a database of plain tables with few columns
    has. *)
Definition plain (_ : string) (_ : list string) (_ : string) : bool := false.

(** A database of three tables, created before the two columns existed. *)
Definition old_schema : Sqlite.schema :=
  [("users", ["id"; "role"; "name"]);
   ("employees", ["id"; "employee_id"; "first_name"]);
   ("departments", ["id"; "name"])].

(** * Properties *)

(** ** Stripping and lowering *)

Example strip_lower_approved :
  Py.lower (Py.strip (String "009" " Approved" +:+ String "010" ""))
  = "approved".
Proof. reflexivity. Qed.

Example strip_keeps_inner_space : Py.strip " on leave " = "on leave".
Proof. reflexivity. Qed.

Example status_out_of_spaced_status :
  Py.replace_space_hyphen (Py.lower "On Leave") = "on-leave".
Proof. reflexivity. Qed.

Example none_is_no_status : invalid_status None = true.
Proof. reflexivity. Qed.

Example blank_is_no_status : invalid_status (Some "   ") = true.
Proof. reflexivity. Qed.

Lemma lower_char_space c :
  Py.is_space (Py.lower_char c) = true -> Py.is_space c = true.
Proof. destruct c as [[] [] [] [] [] [] [] []]; vm_compute; congruence. Qed.

Lemma lstrip_all_space pre l :
  all_space pre -> Py.lstrip (pre ++ l) = Py.lstrip l.
Proof. induction 1 as [|c pre Hc _ IH]; [done|]. cbn. by rewrite Hc. Qed.

Lemma lstrip_head_black l l' :
  head_black l = true -> Py.lstrip (l ++ l') = l ++ l'.
Proof. destruct l as [|c l]; [done|]. cbn. by destruct (Py.is_space c). Qed.

Lemma lstrip_split l :
  exists pre, l = pre ++ Py.lstrip l /\ all_space pre.
Proof.
  induction l as [|c l [pre [E Hpre]]].
  - exists []. split; [done|constructor].
  - cbn. destruct (Py.is_space c) eqn:Hc.
    + exists (c :: pre). split; [cbn; congruence|by constructor].
    + exists []. split; [done|constructor].
Qed.

Lemma strip_split l :
  exists pre post,
    l = pre ++ Py.rstrip (Py.lstrip l) ++ post
    /\ all_space pre /\ all_space post.
Proof.
  destruct (lstrip_split l) as [pre [E Hpre]].
  destruct (lstrip_split (rev (Py.lstrip l))) as [tsop [E' Hpost]].
  exists pre, (rev tsop). split; [|split; [done|]].
  - unfold Py.rstrip. rewrite <- rev_app_distr, <- E', rev_involutive. done.
  - by apply Forall_rev.
Qed.

Lemma strip_core pre core post :
  all_space pre -> all_space post ->
  head_black core = true -> head_black (rev core) = true ->
  Py.rstrip (Py.lstrip (pre ++ core ++ post)) = core.
Proof.
  intros Hpre Hpost Hh Hl.
  rewrite lstrip_all_space, lstrip_head_black by done.
  unfold Py.rstrip.
  rewrite rev_app_distr, lstrip_all_space by by apply Forall_rev.
  rewrite <- (app_nil_r (rev core)), lstrip_head_black by done.
  by rewrite app_nil_r, rev_involutive.
Qed.

Lemma head_black_lower l :
  head_black (map Py.lower_char l) = true -> head_black l = true.
Proof.
  destruct l as [|c l]; [done|]. cbn.
  destruct (Py.is_space c) eqn:Hc; [|done].
  destruct (Py.is_space (Py.lower_char c)) eqn:Hl; [done|].
  intros _. revert Hc Hl. clear.
  destruct c as [[] [] [] [] [] [] [] []]; vm_compute; congruence.
Qed.

(** ** The PATCH branch of [leave_detail], case by case *)

Ltac run_orm :=
  unfold leave_detail, leave_detail_patch, leave_detail_get, try_except,
    leave_detail_try, leave_detail_except, get_leave_request, get_employee,
    assign_leave_request, assign_employee, read_leave_request,
    reload_leave_request, commit, rollback, global_name, set_leave_requests, set_employees,
    mbind, orm_bind, mret, orm_ret; simpl.

Section PatchCases.
Variable fails : db_call -> bool.
Variable sess : session.
Variable utcnow : Z.
Variable k : Z.
Variable data : patch_data.
Variable d : db.

Lemma patch_invalid :
  invalid_status (data_status data) = true ->
  leave_detail fails sess utcnow PATCH k data d = (validation_error, d).
Proof. intros H. run_orm. by rewrite H. Qed.

Lemma patch_query_fails :
  invalid_status (data_status data) = false ->
  fails GetLeaveRequest = true ->
  leave_detail fails sess utcnow PATCH k data d = (database_error, d).
Proof. intros H F. run_orm. by rewrite H, F. Qed.

Lemma patch_missing :
  invalid_status (data_status data) = false ->
  fails GetLeaveRequest = false ->
  leave_requests d !! k = None ->
  leave_detail fails sess utcnow PATCH k data d
  = (if sqlite_max_integer <? k then Unhandled OverflowError else not_found,
     d).
Proof.
  intros H F L. run_orm. rewrite H, F. simpl. rewrite L.
  by destruct (sqlite_max_integer <? k).
Qed.

Lemma patch_approved_fails lr :
  invalid_status (data_status data) = false ->
  fails GetLeaveRequest = false ->
  leave_requests d !! k = Some lr ->
  normalized data = "approved" ->
  fails GetEmployee = true \/ fails Commit = true ->
  leave_detail fails sess utcnow PATCH k data d = (database_error, d).
Proof.
  intros H F L N [G|G]; run_orm; unfold normalized in N;
    rewrite H, F; simpl; rewrite L, N; simpl.
  - by rewrite G.
  - destruct (fails GetEmployee); [done|].
    destruct (employees d !! LeaveRequest.employee_id lr); simpl; by rewrite G.
Qed.

Lemma patch_other_fails lr :
  invalid_status (data_status data) = false ->
  fails GetLeaveRequest = false ->
  leave_requests d !! k = Some lr ->
  normalized data <> "approved" ->
  fails Commit = true ->
  leave_detail fails sess utcnow PATCH k data d = (database_error, d).
Proof.
  intros H F L N G. run_orm. unfold normalized in N. rewrite H, F. simpl. rewrite L.
  repeat case_decide; simpl; try done; by rewrite G.
Qed.

Lemma patch_approved lr :
  invalid_status (data_status data) = false ->
  fails GetLeaveRequest = false ->
  leave_requests d !! k = Some lr ->
  normalized data = "approved" ->
  fails GetEmployee = false -> fails Commit = false ->
  let lr' :=
    LeaveRequest.mk (LeaveRequest.employee_id lr) (LeaveRequest.leave_type_id lr)
      (LeaveRequest.start_date lr) (LeaveRequest.end_date lr)
      (LeaveRequest.total_days lr) (Some "approved") (user_id sess)
      (Some utcnow) (LeaveRequest.rejection_reason lr) in
  leave_detail fails sess utcnow PATCH k data d =
  (if fails Reload then database_error else leave_ok k lr',
   mkdb (alter (Employee.set_status (Some "on-leave"))
               (LeaveRequest.employee_id lr) (employees d))
        (<[k := lr']> (leave_requests d))
        (leave_balances d) (attendance d)).
Proof.
  intros H F L N G1 G2 lr'. run_orm. unfold normalized in N.
  rewrite H, F. simpl. rewrite L, N. simpl.
  rewrite G1. simpl.
  assert (E : alter (LeaveRequest.set_approved_by (user_id sess)) k
     (alter (LeaveRequest.set_approved_at (Some utcnow)) k
        (alter (LeaveRequest.set_status (Some "approved")) k (leave_requests d)))
     = <[k := lr']> (leave_requests d)).
  { apply map_eq. intros i. destruct (decide (i = k)) as [->|].
    - rewrite !lookup_alter_eq, L, lookup_insert_eq. done.
    - rewrite !lookup_alter_ne, lookup_insert_ne by done. done. }
  assert (E' : employees d !! LeaveRequest.employee_id lr = None ->
               employees d
               = alter (Employee.set_status (Some "on-leave"))
                       (LeaveRequest.employee_id lr) (employees d)).
  { intros Le. apply map_eq. intros i.
    destruct (decide (i = LeaveRequest.employee_id lr)) as [->|].
    - by rewrite lookup_alter_eq, Le.
    - by rewrite lookup_alter_ne. }
  destruct (employees d !! LeaveRequest.employee_id lr) eqn:Le; simpl;
    rewrite G2; simpl; destruct (fails Reload); simpl;
    rewrite E, ?lookup_insert_eq; simpl; try done;
    unfold database_error, leave_ok; by rewrite <- E'.
Qed.

Lemma patch_rejected lr :
  invalid_status (data_status data) = false ->
  fails GetLeaveRequest = false ->
  leave_requests d !! k = Some lr ->
  normalized data = "rejected" ->
  fails Commit = false ->
  let lr' :=
    LeaveRequest.mk (LeaveRequest.employee_id lr) (LeaveRequest.leave_type_id lr)
      (LeaveRequest.start_date lr) (LeaveRequest.end_date lr)
      (LeaveRequest.total_days lr) (Some "rejected") (LeaveRequest.approved_by lr)
      (LeaveRequest.approved_at lr)
      (Py.or_else (data_rejection_reason data) (LeaveRequest.rejection_reason lr)) in
  leave_detail fails sess utcnow PATCH k data d =
  (if fails Reload then database_error else leave_ok k lr',
   mkdb (employees d) (<[k := lr']> (leave_requests d))
        (leave_balances d) (attendance d)).
Proof.
  intros H F L N G lr'. run_orm. unfold normalized in N. rewrite H, F. simpl.
  rewrite L, N. simpl. rewrite G. simpl.
  assert (E : alter (LeaveRequest.set_rejection_reason
                (Py.or_else (data_rejection_reason data)
                   (LeaveRequest.rejection_reason lr))) k
     (alter (LeaveRequest.set_status (Some "rejected")) k (leave_requests d))
     = <[k := lr']> (leave_requests d)).
  { apply map_eq. intros i. destruct (decide (i = k)) as [->|].
    - by rewrite !lookup_alter_eq, L, lookup_insert_eq.
    - by rewrite !lookup_alter_ne, lookup_insert_ne. }
  destruct (fails Reload); simpl; by rewrite E, ?lookup_insert_eq.
Qed.

Lemma patch_pending lr :
  invalid_status (data_status data) = false ->
  fails GetLeaveRequest = false ->
  leave_requests d !! k = Some lr ->
  normalized data = "pending" ->
  fails Commit = false ->
  let lr' := LeaveRequest.set_status (Some "pending") lr in
  leave_detail fails sess utcnow PATCH k data d =
  (if fails Reload then database_error else leave_ok k lr',
   mkdb (employees d) (<[k := lr']> (leave_requests d))
        (leave_balances d) (attendance d)).
Proof.
  intros H F L N G lr'. run_orm. unfold normalized in N. rewrite H, F. simpl.
  rewrite L, N. simpl. rewrite G. simpl.
  assert (E : alter (LeaveRequest.set_status (Some "pending")) k (leave_requests d)
     = <[k := lr']> (leave_requests d)).
  { apply map_eq. intros i. destruct (decide (i = k)) as [->|].
    - by rewrite !lookup_alter_eq, L, lookup_insert_eq.
    - by rewrite !lookup_alter_ne, lookup_insert_ne. }
  destruct (fails Reload); simpl; by rewrite E, ?lookup_insert_eq.
Qed.

Lemma normalized_allowed :
  invalid_status (data_status data) = false ->
  normalized data = "approved" \/ normalized data = "rejected"
  \/ normalized data = "pending".
Proof.
  unfold invalid_status, normalized. intros H.
  apply orb_false_iff in H as [_ H]. apply negb_false_iff, bool_decide_eq_true in H.
  unfold allowed_status in H.
  repeat (apply elem_of_cons in H as [H|H]; [by auto|]). by apply elem_of_nil in H.
Qed.

End PatchCases.

Lemma get_raises fails sess utcnow k data d :
  leave_detail fails sess utcnow GET k data d = (Unhandled (NameError "text"), d).
Proof. reflexivity. Qed.

(** Every request leaves the database as it was, or commits a new version
    of one leave request together with the employees table of the session;
    what it commits is what the failure-free request commits, and the
    answer is the 200 unless the reload after the commit fails. *)
Lemma leave_detail_outcomes fails sess utcnow m k data d :
  (leave_detail fails sess utcnow m k data d).2 = d
  \/ (exists lr lr' emps, leave_requests d !! k = Some lr
       /\ leave_detail fails sess utcnow m k data d
          = (if fails Reload then database_error else leave_ok k lr',
             mkdb emps (<[k := lr']> (leave_requests d))
                  (leave_balances d) (attendance d))
       /\ leave_detail no_failure sess utcnow m k data d
          = (leave_ok k lr',
             mkdb emps (<[k := lr']> (leave_requests d))
                  (leave_balances d) (attendance d))).
Proof.
  destruct m; [left; by rewrite get_raises|].
  destruct (invalid_status (data_status data)) eqn:H;
    [left; by rewrite patch_invalid|].
  destruct (fails GetLeaveRequest) eqn:F; [left; by rewrite patch_query_fails|].
  destruct (leave_requests d !! k) as [lr|] eqn:L;
    [|left; by rewrite patch_missing].
  destruct (fails Commit) eqn:G2.
  { left. destruct (decide (normalized data = "approved")).
    - by erewrite patch_approved_fails; eauto.
    - by erewrite patch_other_fails. }
  destruct (normalized_allowed data H) as [N|[N|N]].
  - destruct (fails GetEmployee) eqn:G1.
    { left. by erewrite patch_approved_fails; eauto. }
    right. eexists lr, _, _. split; [done|].
    rewrite (patch_approved fails sess utcnow k data d lr),
      (patch_approved no_failure sess utcnow k data d lr) by done.
    done.
  - right. eexists lr, _, _. split; [done|].
    rewrite (patch_rejected fails sess utcnow k data d lr),
      (patch_rejected no_failure sess utcnow k data d lr) by done.
    done.
  - right. eexists lr, _, _. split; [done|].
    rewrite (patch_pending fails sess utcnow k data d lr),
      (patch_pending no_failure sess utcnow k data d lr) by done.
    done.
Qed.

Lemma leave_detail_balances fails sess utcnow m k data d :
  leave_balances (leave_detail fails sess utcnow m k data d).2 = leave_balances d.
Proof.
  destruct (leave_detail_outcomes fails sess utcnow m k data d)
    as [E|(lr & lr' & emps & _ & E & _)]; by rewrite E.
Qed.

(** ** The loop of [list_employees] *)

Lemma elem_of_on_leave_ids today d eid :
  eid ∈ on_leave_ids today d <-> covered today eid d.
Proof.
  unfold on_leave_ids, covered, approved_covering.
  rewrite elem_of_list_to_set, list_elem_of_fmap. split.
  - intros (lr & -> & H). apply list_elem_of_filter in H as [H Hin].
    apply list_elem_of_fmap in Hin as ([k lr'] & -> & Hin).
    apply elem_of_map_to_list in Hin. simpl in *.
    apply andb_true_iff in H as [H H3]. apply andb_true_iff in H as [H1 H2].
    apply bool_decide_eq_true in H1. exists k, lr'. repeat split; [done..|lia|lia].
  - intros (k & lr & Hk & <- & Hs & Hd). exists lr. split; [done|].
    apply list_elem_of_filter. split.
    + rewrite !andb_true_iff, bool_decide_eq_true. repeat split; [done|lia|lia].
    + apply list_elem_of_fmap. exists (k, lr). split; [done|].
      by apply elem_of_map_to_list.
Qed.

Lemma reconciled_idemp ids eid e :
  reconciled ids eid (reconciled ids eid e) = reconciled ids eid e.
Proof.
  unfold reconciled. repeat (case_decide; simpl in *; try done).
Qed.

Lemma step_session ids acc eid e :
  session_employees acc !! eid = Some e ->
  session_employees (list_employees_step ids acc (eid, e))
  = <[eid := reconciled ids eid e]> (session_employees acc).
Proof.
  intros H. unfold list_employees_step, reconciled.
  repeat (case_decide; simpl; try done); try (by rewrite insert_id); tauto.
Qed.

Lemma set_status_ne v e :
  Employee.status e <> v -> Employee.set_status v e <> e.
Proof. intros H E. apply H. by rewrite <- E. Qed.

Lemma step_flag ids acc eid e :
  to_update (list_employees_step ids acc (eid, e))
  = to_update acc || bool_decide (reconciled ids eid e <> e).
Proof.
  unfold list_employees_step, reconciled.
  destruct (decide (eid ∈ ids)) as [Hin|Hin];
    destruct (decide (Employee.status e = Some "on-leave")) as [Hs|Hs].
  - rewrite decide_False by auto. simpl.
    rewrite bool_decide_eq_false_2 by auto. by rewrite orb_false_r.
  - rewrite decide_True by done. simpl.
    rewrite bool_decide_eq_true_2 by by apply set_status_ne.
    by rewrite orb_true_r.
  - rewrite decide_True by done. simpl.
    rewrite bool_decide_eq_true_2, orb_true_r; [done|].
    apply set_status_ne. by rewrite Hs.
  - rewrite decide_False by tauto. simpl.
    rewrite bool_decide_eq_false_2 by auto. by rewrite orb_false_r.
Qed.

Lemma loop_session ids (l : list (Z * Employee.t)) : forall acc,
  NoDup l.*1 ->
  (forall eid e, (eid, e) ∈ l -> session_employees acc !! eid = Some e) ->
  forall eid,
    session_employees (foldl (list_employees_step ids) acc l) !! eid
    = if decide (eid ∈ l.*1)
      then reconciled ids eid <$> session_employees acc !! eid
      else session_employees acc !! eid.
Proof.
  induction l as [|[k0 e0] l IH]; intros acc ND Hl eid.
  - case_decide as Hin; [by apply elem_of_nil in Hin|done].
  - rewrite fmap_cons in *. cbn [foldl fst].
    apply NoDup_cons in ND as [Hk0 ND].
    assert (H0 : session_employees acc !! k0 = Some e0) by (apply Hl; left).
    rewrite IH; [|done|].
    + rewrite (step_session _ _ _ _ H0).
      destruct (decide (eid = k0)) as [->|Hne].
      * rewrite decide_False by done. rewrite decide_True by left.
        by rewrite lookup_insert_eq, H0.
      * rewrite lookup_insert_ne by done.
        destruct (decide (eid ∈ l.*1)).
        -- rewrite decide_True; [done|]. by right.
        -- rewrite decide_False; [done|]. intros [?|?]%elem_of_cons; done.
    + intros eid' e' Hin. rewrite (step_session _ _ _ _ H0).
      rewrite lookup_insert_ne.
      * apply Hl. by right.
      * intros <-. apply Hk0. apply list_elem_of_fmap. by exists (k0, e').
Qed.

Lemma loop_flag ids (l : list (Z * Employee.t)) : forall acc,
  to_update (foldl (list_employees_step ids) acc l)
  = to_update acc
    || bool_decide (Exists (fun r => reconciled ids r.1 r.2 <> r.2) l).
Proof.
  induction l as [|[k0 e0] l IH]; intros acc; cbn [foldl].
  - rewrite bool_decide_eq_false_2; [by rewrite orb_false_r|]. by intros ?%Exists_nil.
  - rewrite IH, step_flag, <- orb_assoc. f_equal.
    apply eq_true_iff_eq. rewrite orb_true_iff, !bool_decide_eq_true, Exists_cons. done.
Qed.

Lemma unlisted_lookup {A} (m : gmap Z A) k :
  k ∉ (map_to_list m).*1 -> m !! k = None.
Proof.
  intros H. destruct (m !! k) as [x|] eqn:E; [|done].
  exfalso. apply H. apply list_elem_of_fmap. exists (k, x).
  split; [done|]. by apply elem_of_map_to_list.
Qed.

Lemma on_leave_ids_leave_requests today d d' :
  leave_requests d' = leave_requests d ->
  on_leave_ids today d' = on_leave_ids today d.
Proof. unfold on_leave_ids. by intros ->. Qed.

Lemma loop_unchanged today d :
  to_update (list_employees_loop today d) = false ->
  forall eid e, employees d !! eid = Some e ->
    reconciled (on_leave_ids today d) eid e = e.
Proof.
  unfold list_employees_loop. rewrite loop_flag. simpl.
  intros H eid e He. apply bool_decide_eq_false in H.
  destruct (decide (reconciled (on_leave_ids today d) eid e = e)) as [|Hne]; [done|].
  exfalso. apply H. apply Exists_exists. exists (eid, e). split; [|done].
  by apply elem_of_map_to_list.
Qed.

Lemma list_employees_lookup sess today d eid :
  hr_required sess = true ->
  employees (list_employees sess today d).2 !! eid
  = reconciled (on_leave_ids today d) eid <$> employees d !! eid.
Proof.
  intros Hs. unfold list_employees. rewrite Hs. simpl.
  destruct (to_update (list_employees_loop today d)) eqn:T.
  - simpl. unfold list_employees_loop. rewrite loop_session.
    + simpl. case_decide as Hin; [done|]. by rewrite (unlisted_lookup _ _ Hin).
    + apply NoDup_fst_map_to_list.
    + intros k e. simpl. apply elem_of_map_to_list.
  - destruct (employees d !! eid) as [e|] eqn:E; [|done]. simpl.
    by rewrite (loop_unchanged _ _ T _ _ E).
Qed.

Lemma list_employees_leave_requests sess today d :
  leave_requests (list_employees sess today d).2 = leave_requests d.
Proof.
  unfold list_employees. destruct (negb (hr_required sess)); [done|].
  simpl. by destruct (to_update _).
Qed.

Lemma count_where_size {A} (P : A -> bool) (m : gmap Z A) :
  count_where P m = size (filter (fun kv : Z * A => P kv.2 = true) m).
Proof.
  unfold count_where. rewrite map_filter_alt, map_size_list_to_map.
  - induction (map_to_list m) as [|[k a] l IH]; [done|].
    rewrite fmap_cons, !filter_cons. simpl.
    destruct (decide (P a = true)); simpl; by rewrite IH.
  - apply (sublist_NoDup _ (map_to_list m).*1);
      [apply NoDup_fst_map_to_list|apply fmap_sublist, sublist_filter].
Qed.

Lemma invalid_status_spec o :
  invalid_status o = false <-> decision_allowed o.
Proof.
  unfold invalid_status, decision_allowed. split.
  - intros H. apply orb_false_iff in H as [Ht Hin].
    apply negb_false_iff in Ht. apply negb_false_iff, bool_decide_eq_true in Hin.
    destruct o as [s|]; [|done]. simpl in Hin.
    exists s, (Py.lower (Py.strip s)). split; [done|]. split; [done|].
    destruct (strip_split (list_ascii_of_string s)) as (pre & post & E & Hpre & Hpost).
    exists pre, (Py.rstrip (Py.lstrip (list_ascii_of_string s))), post.
    repeat split; [done..|].
    unfold Py.lower, Py.strip.
    by rewrite !list_ascii_of_string_of_list_ascii.
  - intros (s & w & -> & Hw & pre & core & post & E & Hpre & Hpost & Hcore).
    assert (Hends : head_black (map Py.lower_char core) = true
                    /\ head_black (rev (map Py.lower_char core)) = true).
    { rewrite Hcore. unfold allowed_status in Hw.
      repeat (apply elem_of_cons in Hw as [-> | Hw]; [by vm_compute|]).
      by apply elem_of_nil in Hw. }
    destruct Hends as [Hhd Htl]. rewrite <- map_rev in Htl.
    apply head_black_lower in Hhd, Htl.
    assert (Hstrip : Py.lower (Py.strip s) = w).
    { unfold Py.lower, Py.strip.
      rewrite E, strip_core, list_ascii_of_string_of_list_ascii, Hcore by done.
      apply string_of_list_ascii_of_string. }
    apply orb_false_iff. split.
    + apply negb_false_iff. simpl. apply negb_true_iff, String.eqb_neq.
      intros ->. simpl in E. destruct pre; [destruct core|]; done.
    + apply negb_false_iff, bool_decide_eq_true. simpl. by rewrite Hstrip.
Qed.

Lemma normalized_valid data :
  normalized data = "approved" \/ normalized data = "rejected"
  \/ normalized data = "pending" ->
  invalid_status (data_status data) = false.
Proof.
  unfold normalized, invalid_status. intros H.
  destruct (data_status data) as [s|]; [|by destruct H as [H|[H|H]]].
  destruct (String.eqb s "") eqn:Es.
  { apply String.eqb_eq in Es as ->. by destruct H as [H|[H|H]]. }
  simpl. rewrite Es. simpl. apply negb_false_iff, bool_decide_eq_true.
  simpl in H. unfold allowed_status.
  destruct H as [-> | [-> | ->] ]; repeat constructor.
Qed.

(** ** The GET branch of [leave_detail] *)

(** C10: whatever the request id, the GET branch never answers: the
    evaluation of the unbound global [text] raises [NameError], which no
    handler catches, and the database is left as it was. *)
Theorem get_never_returns_leave fails sess utcnow leave_id data d :
  leave_detail fails sess utcnow GET leave_id data d
  = (Unhandled (NameError "text"), d).
Proof. apply get_raises. Qed.

(** ** The ledger and the PATCH branch *)

Lemma serve_all_balances rqs : forall d,
  leave_balances (serve_all rqs d) = leave_balances d.
Proof.
  unfold serve_all. induction rqs as [|rq rqs IH]; intros d; [done|].
  cbn [foldl]. rewrite IH. apply leave_detail_balances.
Qed.

(** C1, as the code has it: no call of [leave_detail] writes the
    [leave_balances] table, so after any sequence of calls every row is
    the row it was, and the ledger equation with its three lower bounds
    holds afterwards if it held before. *)
Theorem decisions_keep_ledger rqs d :
  leave_balances (serve_all rqs d) = leave_balances d
  /\ (ledger_ok d -> ledger_ok (serve_all rqs d)).
Proof.
  split; [apply serve_all_balances|].
  unfold ledger_ok. by rewrite serve_all_balances.
Qed.

Lemma decisions_keep_ledger_witness :
  ledger_ok office
  /\ ledger_ok
       (serve_all
          [mkrequest no_failure hr_session 1717400000 PATCH 7 approve;
           mkrequest no_failure hr_session 1717500000 PATCH 7 reject]
          office).
Proof.
  assert (H : ledger_ok office).
  { unfold ledger_ok, office. simpl. by apply map_Forall_singleton. }
  split; [exact H|].
  exact (proj2 (decisions_keep_ledger _ office) H).
Defined.

(** C1, against the claim: approving the pending three-day request moves
    nothing in the ledger; the matching row still has [used] 0 and
    [pending] 3.0 where the claim has [used] 3.0 and [pending] 0. *)
Lemma approval_leaves_ledger_counters :
  (leave_detail no_failure hr_session 1717400000 PATCH 7 approve office).1
  = leave_ok 7 june_leave_approved
  /\ leave_balances
       (leave_detail no_failure hr_session 1717400000 PATCH 7 approve office).2
     !! 1
     = Some (LeaveBalance.mk 1 1 2024 (Some 120) (Some 0) (Some 30) (Some 90))
  /\ LeaveRequest.total_days june_leave = 30.
Proof. split; [|split]; by vm_compute. Qed.

(** C2, as the code has it: the PATCH branch never looks at the status a
    request already has.  On a request that is already approved or
    rejected, a further decision with an allowed value, when no database
    call fails, answers 200 and puts the new decision in the status column;
    the ledger is not touched. *)
Theorem decided_request_is_overwritten sess utcnow k data d lr :
  leave_requests d !! k = Some lr ->
  LeaveRequest.status lr = Some "approved"
  \/ LeaveRequest.status lr = Some "rejected" ->
  invalid_status (data_status data) = false ->
  exists lr',
    (leave_detail no_failure sess utcnow PATCH k data d).1 = leave_ok k lr'
    /\ leave_requests (leave_detail no_failure sess utcnow PATCH k data d).2 !! k
       = Some lr'
    /\ LeaveRequest.status lr' = Some (normalized data)
    /\ leave_balances (leave_detail no_failure sess utcnow PATCH k data d).2
       = leave_balances d.
Proof.
  intros L _ H. destruct (normalized_allowed data H) as [N|[N|N]].
  - rewrite (patch_approved no_failure sess utcnow k data d lr) by done.
    eexists. simpl. rewrite lookup_insert_eq, N. done.
  - rewrite (patch_rejected no_failure sess utcnow k data d lr) by done.
    eexists. simpl. rewrite lookup_insert_eq, N. done.
  - rewrite (patch_pending no_failure sess utcnow k data d lr) by done.
    eexists. simpl. rewrite lookup_insert_eq, N. done.
Qed.

Lemma decided_request_is_overwritten_witness :
  leave_requests office_decided !! 7 = Some june_leave_approved
  /\ exists lr',
    (leave_detail no_failure hr_session 1717500000 PATCH 7 reopen
       office_decided).1 = leave_ok 7 lr'
    /\ leave_requests
         (leave_detail no_failure hr_session 1717500000 PATCH 7 reopen
            office_decided).2 !! 7 = Some lr'
    /\ LeaveRequest.status lr' = Some (normalized reopen)
    /\ leave_balances
         (leave_detail no_failure hr_session 1717500000 PATCH 7 reopen
            office_decided).2 = leave_balances office_decided.
Proof.
  split; [reflexivity|].
  apply (decided_request_is_overwritten hr_session 1717500000 7 reopen
           office_decided june_leave_approved);
    [reflexivity|left; reflexivity|reflexivity].
Defined.

(** C2, against the claim: a rejection sent for the request that is
    already approved answers 200, not a failure, and the row now reads
    rejected, with the supplied reason. *)
Lemma approved_request_can_be_rejected :
  LeaveRequest.status june_leave_approved = Some "approved"
  /\ leave_requests office_decided !! 7 = Some june_leave_approved
  /\ (leave_detail no_failure hr_session 1717500000 PATCH 7 reject
        office_decided).1
     = Response (LeaveBody (mkleave_view 7 1 (Some "rejected") (Some 5)
                              (Some 1717400000))) 200
  /\ leave_requests
       (leave_detail no_failure hr_session 1717500000 PATCH 7 reject
          office_decided).2 !! 7
     = Some (LeaveRequest.mk 1 1 739047 739049 30 (Some "rejected") (Some 5)
               (Some 1717400000) (Some "team is short-staffed")).
Proof. repeat split; by vm_compute. Qed.

(** C3, as the code has it: approving a pending request, when no database
    call fails, sets its status to approved, [approved_by] to the session's
    user (null without one) and [approved_at] to the current UTC time,
    leaves every ledger row as it was, and, when the request covers today,
    leaves the employee on leave. *)
Theorem approval_sets_fields sess utcnow today k data d lr :
  leave_requests d !! k = Some lr ->
  LeaveRequest.status lr = Some "pending" ->
  normalized data = "approved" ->
  let lr' :=
    LeaveRequest.mk (LeaveRequest.employee_id lr) (LeaveRequest.leave_type_id lr)
      (LeaveRequest.start_date lr) (LeaveRequest.end_date lr)
      (LeaveRequest.total_days lr) (Some "approved") (user_id sess)
      (Some utcnow) (LeaveRequest.rejection_reason lr) in
  (leave_detail no_failure sess utcnow PATCH k data d).1 = leave_ok k lr'
  /\ leave_requests (leave_detail no_failure sess utcnow PATCH k data d).2 !! k
     = Some lr'
  /\ leave_balances (leave_detail no_failure sess utcnow PATCH k data d).2
     = leave_balances d
  /\ forall e,
       employees d !! LeaveRequest.employee_id lr = Some e ->
       LeaveRequest.start_date lr <= today <= LeaveRequest.end_date lr ->
       employees (leave_detail no_failure sess utcnow PATCH k data d).2
         !! LeaveRequest.employee_id lr
       = Some (Employee.set_status (Some "on-leave") e).
Proof.
  intros L _ N lr'.
  rewrite (patch_approved no_failure sess utcnow k data d lr);
    [|apply normalized_valid; auto|done..].
  simpl. rewrite lookup_insert_eq. repeat split; [done..|].
  intros e He _. by rewrite lookup_alter_eq, He.
Qed.

Lemma approval_sets_fields_witness :
  leave_requests office !! 7 = Some june_leave
  /\ 739047 <= 739048 <= 739049
  /\ (leave_detail no_failure hr_session 1717400000 PATCH 7 approve office).1
     = leave_ok 7 june_leave_approved
  /\ employees
       (leave_detail no_failure hr_session 1717400000 PATCH 7 approve office).2
       !! 1
     = Some (Employee.set_status (Some "on-leave") asha).
Proof.
  split; [reflexivity|]. split; [lia|].
  destruct (approval_sets_fields hr_session 1717400000 739048 7 approve office
              june_leave) as (H1 & _ & _ & H4);
    [reflexivity|reflexivity|reflexivity|].
  split; [exact H1|]. apply (H4 asha); [reflexivity|simpl; lia].
Defined.

(** C3, against the claim: the request approved here runs from 2024-06-10
    to 2024-06-12; whatever today is (it is no input of the view), so also
    on 2024-06-01, the employee is marked on leave at once, and the ledger
    row keeps [used] 0 and [pending] 3.0. *)
Lemma approval_marks_on_leave_early :
  ~ (LeaveRequest.start_date june_leave <= 739038
     <= LeaveRequest.end_date june_leave)
  /\ employees office !! 1 = Some asha
  /\ employees
       (leave_detail no_failure hr_session 1717400000 PATCH 7 approve office).2
       !! 1
     = Some (Employee.mk "EMP001" "Asha" "Rao" (Some "on-leave"))
  /\ leave_balances
       (leave_detail no_failure hr_session 1717400000 PATCH 7 approve office).2
       !! 1
     = Some annual_2024.
Proof. split; [simpl; lia|]. repeat split; by vm_compute. Qed.

(** C6, as the code has it: rejecting a pending request, when no database
    call fails, sets its status to rejected; the rejection reason becomes
    the supplied one when that is a non-empty string and stays what it was
    when none is supplied or the supplied one is null or the empty string;
    no ledger row and no employee changes. *)
Theorem rejection_sets_fields sess utcnow k data d lr :
  leave_requests d !! k = Some lr ->
  LeaveRequest.status lr = Some "pending" ->
  normalized data = "rejected" ->
  exists reason,
    let lr' :=
      LeaveRequest.mk (LeaveRequest.employee_id lr)
        (LeaveRequest.leave_type_id lr) (LeaveRequest.start_date lr)
        (LeaveRequest.end_date lr) (LeaveRequest.total_days lr)
        (Some "rejected") (LeaveRequest.approved_by lr)
        (LeaveRequest.approved_at lr) reason in
    (leave_detail no_failure sess utcnow PATCH k data d).1 = leave_ok k lr'
    /\ leave_requests (leave_detail no_failure sess utcnow PATCH k data d).2 !! k
       = Some lr'
    /\ (forall s, data_rejection_reason data = Some s -> s <> "" ->
                  reason = Some s)
    /\ (data_rejection_reason data = None
        \/ data_rejection_reason data = Some "" ->
        reason = LeaveRequest.rejection_reason lr)
    /\ leave_balances (leave_detail no_failure sess utcnow PATCH k data d).2
       = leave_balances d
    /\ employees (leave_detail no_failure sess utcnow PATCH k data d).2
       = employees d.
Proof.
  intros L _ N.
  exists (Py.or_else (data_rejection_reason data) (LeaveRequest.rejection_reason lr)).
  rewrite (patch_rejected no_failure sess utcnow k data d lr);
    [|apply normalized_valid; auto|done..].
  simpl. rewrite lookup_insert_eq. repeat split; [| |done..].
  - intros s -> Hs. unfold Py.or_else. simpl.
    apply String.eqb_neq in Hs. by rewrite Hs.
  - by intros [-> | ->].
Qed.

Lemma rejection_sets_fields_witness :
  leave_requests office !! 7 = Some june_leave
  /\ exists reason,
    leave_requests
      (leave_detail no_failure hr_session 1717500000 PATCH 7 reject office).2
      !! 7
    = Some (LeaveRequest.mk 1 1 739047 739049 30 (Some "rejected") None None
              reason)
    /\ reason = Some "team is short-staffed".
Proof.
  split; [reflexivity|].
  destruct (rejection_sets_fields hr_session 1717500000 7 reject office
              june_leave) as (reason & _ & H2 & H3 & _);
    [reflexivity|reflexivity|reflexivity|].
  exists reason. split; [exact H2|].
  apply H3; [reflexivity|discriminate].
Defined.

(** C6, against the claim: after the rejection of the pending three-day
    request the matching ledger row still has [pending] 3.0, where the
    claim has it decremented to 0. *)
Lemma rejection_leaves_pending_counter :
  LeaveRequest.total_days june_leave = 30
  /\ LeaveBalance.pending annual_2024 = Some 30
  /\ (leave_detail no_failure hr_session 1717500000 PATCH 7 reject office).1
     = Response (LeaveBody (mkleave_view 7 1 (Some "rejected") None None)) 200
  /\ LeaveBalance.pending
       <$> leave_balances
             (leave_detail no_failure hr_session 1717500000 PATCH 7 reject
                office).2 !! 1
     = Some (Some 30).
Proof. repeat split; by vm_compute. Qed.

Lemma valid_answers fails sess utcnow k data d :
  invalid_status (data_status data) = false ->
  (leave_detail fails sess utcnow PATCH k data d).1 <> validation_error.
Proof.
  intros H E.
  destruct (fails GetLeaveRequest) eqn:F.
  { by rewrite patch_query_fails in E. }
  destruct (leave_requests d !! k) as [lr|] eqn:L.
  2: { rewrite patch_missing in E by done.
       by destruct (sqlite_max_integer <? k). }
  destruct (decide (normalized data = "approved")) as [N|N].
  - destruct (fails GetEmployee) eqn:G1;
      [by erewrite patch_approved_fails in E; eauto|].
    destruct (fails Commit) eqn:G2;
      [by erewrite patch_approved_fails in E; eauto|].
    rewrite (patch_approved fails sess utcnow k data d lr) in E by done.
    by destruct (fails Reload).
  - destruct (fails Commit) eqn:G2; [by erewrite patch_other_fails in E|].
    destruct (normalized_allowed data H) as [N'|[N'|N']]; [done| |].
    + rewrite (patch_rejected fails sess utcnow k data d lr) in E by done.
      by destruct (fails Reload).
    + rewrite (patch_pending fails sess utcnow k data d lr) in E by done.
      by destruct (fails Reload).
Qed.

Lemma names_pending_normalized data s :
  data_status data = Some s -> names_status s "pending" ->
  invalid_status (data_status data) = false /\ normalized data = "pending".
Proof.
  intros E Hn.
  assert (Ha : decision_allowed (data_status data)).
  { exists s, "pending". repeat split; [done| |done].
    unfold allowed_status. repeat constructor. }
  apply invalid_status_spec in Ha. split; [done|].
  destruct Hn as (pre & core & post & El & Hpre & Hpost & Hcore).
  assert (Hhd : head_black (map Py.lower_char core) = true) by by rewrite Hcore.
  assert (Htl : head_black (rev (map Py.lower_char core)) = true)
    by by rewrite Hcore.
  rewrite <- map_rev in Htl. apply head_black_lower in Hhd, Htl.
  unfold normalized, Py.lower, Py.strip. rewrite E. simpl.
  rewrite El, strip_core, list_ascii_of_string_of_list_ascii, Hcore by done.
  done.
Qed.

(** X18: for a PATCH whose body is a JSON object with a status that is a
    string, null or missing: (1) the answer is the 400 exactly when the
    status is missing or, read up to surrounding whitespace and letter
    case, is none of approved, rejected and pending, and then the database
    is as it was; (2) with an allowed status and an id within the SQLite
    integers that no row has, the answer is the 404 and the database is as
    it was; (3) the value pending is accepted: when no database call fails
    the answer is 200, the row's status reads pending, its employee, leave
    type, dates, length, approver, approval time and rejection reason are
    kept, and every other row and table is as before. *)
Theorem decision_is_validated :
  (forall fails sess utcnow k data d,
     ((leave_detail fails sess utcnow PATCH k data d).1 = validation_error
      <-> ~ decision_allowed (data_status data))
     /\ (~ decision_allowed (data_status data) ->
         (leave_detail fails sess utcnow PATCH k data d).2 = d))
  /\ (forall fails sess utcnow k data d,
        decision_allowed (data_status data) ->
        fails GetLeaveRequest = false ->
        leave_requests d !! k = None ->
        k <= sqlite_max_integer ->
        leave_detail fails sess utcnow PATCH k data d = (not_found, d))
  /\ (forall sess utcnow k data d s lr,
        data_status data = Some s ->
        names_status s "pending" ->
        leave_requests d !! k = Some lr ->
        leave_detail no_failure sess utcnow PATCH k data d
        = (Response
             (LeaveBody
                (mkleave_view k (LeaveRequest.employee_id lr) (Some "pending")
                   (LeaveRequest.approved_by lr)
                   (LeaveRequest.approved_at lr)))
             200,
           mkdb (employees d)
             (<[k := LeaveRequest.mk (LeaveRequest.employee_id lr)
                       (LeaveRequest.leave_type_id lr)
                       (LeaveRequest.start_date lr) (LeaveRequest.end_date lr)
                       (LeaveRequest.total_days lr) (Some "pending")
                       (LeaveRequest.approved_by lr)
                       (LeaveRequest.approved_at lr)
                       (LeaveRequest.rejection_reason lr)]>
                (leave_requests d))
             (leave_balances d) (attendance d))).
Proof.
  split; [|split].
  - intros fails sess utcnow k data d.
    rewrite <- invalid_status_spec. split; [split|].
    + intros E H. by apply (valid_answers fails sess utcnow k data d).
    + intros H. apply not_false_is_true in H. by rewrite patch_invalid.
    + intros H. apply not_false_is_true in H. by rewrite patch_invalid.
  - intros fails sess utcnow k data d H F L Hk.
    apply invalid_status_spec in H. rewrite patch_missing by done.
    destruct (sqlite_max_integer <? k) eqn:Hlt; [|done].
    apply Z.ltb_lt in Hlt. lia.
  - intros sess utcnow k data d s lr E Hn L.
    destruct (names_pending_normalized data s E Hn) as [H N].
    by rewrite (patch_pending no_failure sess utcnow k data d lr).
Qed.

Lemma decision_is_validated_witness :
  (~ decision_allowed (Some "cancelled")
   /\ (leave_detail no_failure hr_session 0 PATCH 7
         (mkpatch_data (Some "cancelled") None) office).2 = office)
  /\ (decision_allowed (data_status approve)
      /\ leave_requests office !! 8 = None
      /\ leave_detail no_failure hr_session 0 PATCH 8 approve office
         = (not_found, office))
  /\ (names_status "PENDING" "pending"
      /\ leave_requests office_decided !! 7 = Some june_leave_approved
      /\ leave_requests
           (leave_detail no_failure hr_session 0 PATCH 7 reopen
              office_decided).2 !! 7
         = Some (LeaveRequest.mk 1 1 739047 739049 30 (Some "pending")
                   (Some 5) (Some 1717400000) None)).
Proof.
  destruct decision_is_validated as (V & M & P).
  assert (Hbad : ~ decision_allowed (Some "cancelled")).
  { apply (V no_failure hr_session 0 7 (mkpatch_data (Some "cancelled") None)
             office). reflexivity. }
  assert (Hgood : decision_allowed (data_status approve)).
  { apply invalid_status_spec. reflexivity. }
  assert (Hpend : names_status "PENDING" "pending").
  { exists [], (list_ascii_of_string "PENDING"), [].
    repeat split; constructor. }
  split; [|split].
  - split; [exact Hbad|].
    apply (V no_failure hr_session 0 7 (mkpatch_data (Some "cancelled") None)
             office). exact Hbad.
  - split; [exact Hgood|]. split; [reflexivity|].
    apply (M no_failure hr_session 0 8 approve office);
      [exact Hgood|reflexivity|reflexivity|by vm_compute].
  - split; [exact Hpend|]. split; [reflexivity|].
    rewrite (P hr_session 0 7 reopen office_decided "PENDING"
               june_leave_approved); [reflexivity|reflexivity|exact Hpend|
                                      reflexivity].
Defined.

(** C7: the code misses a case of the claim.  An id beyond the SQLite
    integers, which the route accepts, is the id of no row; a PATCH for it
    with an allowed status does not answer the 404: the lookup of line 28
    raises [OverflowError], which the [except] clause of line 44 does not
    catch.  The database is left as it was. *)
Theorem unknown_huge_id_is_not_reported fails sess utcnow k data d :
  decision_allowed (data_status data) ->
  fails GetLeaveRequest = false ->
  leave_requests d !! k = None ->
  sqlite_max_integer < k ->
  leave_detail fails sess utcnow PATCH k data d
  = (Unhandled OverflowError, d).
Proof.
  intros H F L Hk. apply invalid_status_spec in H.
  rewrite patch_missing by done.
  by rewrite (proj2 (Z.ltb_lt _ _) Hk).
Qed.

Lemma unknown_huge_id_is_not_reported_witness :
  decision_allowed (data_status approve)
  /\ leave_requests office !! 9223372036854775808 = None
  /\ sqlite_max_integer < 9223372036854775808
  /\ leave_detail no_failure hr_session 1717400000 PATCH 9223372036854775808
       approve office
     = (Unhandled OverflowError, office).
Proof.
  assert (Hgood : decision_allowed (data_status approve)).
  { apply invalid_status_spec. reflexivity. }
  split; [exact Hgood|]. split; [reflexivity|]. split; [by vm_compute|].
  apply (unknown_huge_id_is_not_reported no_failure hr_session 1717400000
           9223372036854775808 approve office);
    [exact Hgood|reflexivity|reflexivity|by vm_compute].
Defined.

(** C9: when a database call that the PATCH reaches while it writes fails
    (the load of the request, the load of the employee on an approval, or
    the commit), the answer is the 500 database error and the database is
    exactly as it was; the database after a PATCH is always either the one
    before it or the one the same request commits when nothing fails,
    never a part of it; and a 500 answer comes with the database as it was
    unless what failed is the reload of the row after the commit. *)
Theorem failed_decision_rolls_back fails sess utcnow k data d :
  (invalid_status (data_status data) = false ->
   reaches_failure fails data k d ->
   leave_detail fails sess utcnow PATCH k data d = (database_error, d))
  /\ ((leave_detail fails sess utcnow PATCH k data d).2 = d
      \/ (leave_detail fails sess utcnow PATCH k data d).2
         = (leave_detail no_failure sess utcnow PATCH k data d).2)
  /\ ((leave_detail fails sess utcnow PATCH k data d).1 = database_error ->
      fails Reload = false ->
      (leave_detail fails sess utcnow PATCH k data d).2 = d).
Proof.
  split; [|split].
  - intros H [F|(lr & L & R)]; [by apply patch_query_fails|].
    destruct (fails GetLeaveRequest) eqn:F; [by apply patch_query_fails|].
    destruct (decide (normalized data = "approved")) as [N|N].
    + apply (patch_approved_fails fails sess utcnow k data d lr); try done.
      destruct R as [R|[_ R]]; auto.
    + destruct R as [R|[R _]]; [|done].
      by apply (patch_other_fails fails sess utcnow k data d lr).
  - destruct (leave_detail_outcomes fails sess utcnow PATCH k data d)
      as [Hd|(lr & lr' & emps & _ & Hr & Hn)]; [by left|].
    right. by rewrite Hr, Hn.
  - intros E R.
    destruct (leave_detail_outcomes fails sess utcnow PATCH k data d)
      as [Hd|(lr & lr' & emps & _ & Hr & _)]; [done|].
    rewrite Hr, R in E. done.
Qed.

Lemma failed_decision_rolls_back_witness :
  invalid_status (data_status approve) = false
  /\ reaches_failure (fun c => match c with Commit => true | _ => false end)
       approve 7 office
  /\ leave_detail (fun c => match c with Commit => true | _ => false end)
       hr_session 1717400000 PATCH 7 approve office
     = (database_error, office).
Proof.
  assert (R : reaches_failure
                (fun c => match c with Commit => true | _ => false end)
                approve 7 office).
  { right. exists june_leave. split; [reflexivity|]. left. reflexivity. }
  split; [reflexivity|]. split; [exact R|].
  apply (proj1 (failed_decision_rolls_back _ hr_session 1717400000 7 approve
                  office)); [reflexivity|exact R].
Defined.

(** ** Reconciliation in [list_employees] *)

(** C4: for an employee listed by an authorised call, the status is
    changed to on-leave exactly when it was not on-leave already and an
    approved leave request of the employee covers today; it is changed from
    on-leave to active when no such request exists; in every other case,
    so for an inactive or terminated employee without such a request, the
    row is left as it was.  Only the status column can change. *)
Theorem reconciliation_follows_approved_leave sess today d eid e :
  hr_required sess = true ->
  employees d !! eid = Some e ->
  exists e',
    employees (list_employees sess today d).2 !! eid = Some e'
    /\ Employee.set_status (Employee.status e') e = e'
    /\ (Employee.status e <> Some "on-leave" ->
        (Employee.status e' = Some "on-leave" <-> covered today eid d))
    /\ (Employee.status e = Some "on-leave" -> ~ covered today eid d ->
        Employee.status e' = Some "active")
    /\ (Employee.status e = Some "on-leave" -> covered today eid d -> e' = e)
    /\ (Employee.status e <> Some "on-leave" -> ~ covered today eid d ->
        e' = e).
Proof.
  intros Hs He. exists (reconciled (on_leave_ids today d) eid e).
  rewrite list_employees_lookup, He by done. split; [done|].
  unfold reconciled. rewrite <- elem_of_on_leave_ids.
  destruct e as [code first last st]. simpl.
  destruct (decide (eid ∈ on_leave_ids today d)) as [Hin|Hin];
    destruct (decide (st = Some "on-leave")) as [->|Hst]; simpl;
    repeat split; try done; try tauto.
Qed.

Lemma reconciliation_follows_approved_leave_witness :
  hr_required hr_session = true
  /\ employees office_decided !! 1 = Some asha
  /\ exists e',
    employees (list_employees hr_session 739048 office_decided).2 !! 1 = Some e'
    /\ Employee.set_status (Employee.status e') asha = e'
    /\ (Employee.status asha <> Some "on-leave" ->
        (Employee.status e' = Some "on-leave"
         <-> covered 739048 1 office_decided))
    /\ (Employee.status asha = Some "on-leave" ->
        ~ covered 739048 1 office_decided ->
        Employee.status e' = Some "active")
    /\ (Employee.status asha = Some "on-leave" ->
        covered 739048 1 office_decided -> e' = asha)
    /\ (Employee.status asha <> Some "on-leave" ->
        ~ covered 739048 1 office_decided -> e' = asha).
Proof.
  split; [reflexivity|]. split; [reflexivity|].
  apply (reconciliation_follows_approved_leave hr_session 739048 office_decided
           1 asha); reflexivity.
Defined.

(** C5: after an authorised listing, a second listing on the same day
    finds nothing to correct: its [to_update] flag stays false and it
    leaves the database exactly as the first listing left it. *)
Theorem reconciliation_is_idempotent sess today d :
  hr_required sess = true ->
  to_update (list_employees_loop today (list_employees sess today d).2) = false
  /\ (list_employees sess today (list_employees sess today d).2).2
     = (list_employees sess today d).2.
Proof.
  intros Hs.
  assert (T : to_update
                (list_employees_loop today (list_employees sess today d).2)
              = false).
  { unfold list_employees_loop. rewrite loop_flag. simpl.
    apply bool_decide_eq_false. intros ([k e1] & Hin & Hne)%Exists_exists.
    apply elem_of_map_to_list in Hin. simpl in Hne.
    rewrite list_employees_lookup in Hin by done.
    rewrite (on_leave_ids_leave_requests today d) in Hne
      by apply list_employees_leave_requests.
    destruct (employees d !! k) as [e|]; [|done].
    simpl in Hin. injection Hin as <-. by rewrite reconciled_idemp in Hne. }
  split; [exact T|].
  unfold list_employees at 1. rewrite Hs. simpl. by rewrite T.
Qed.

Lemma reconciliation_is_idempotent_witness :
  hr_required hr_session = true
  /\ to_update
       (list_employees_loop 739048
          (list_employees hr_session 739048 office_decided).2) = false
  /\ (list_employees hr_session 739048
        (list_employees hr_session 739048 office_decided).2).2
     = (list_employees hr_session 739048 office_decided).2.
Proof.
  split; [reflexivity|].
  apply (reconciliation_is_idempotent hr_session 739048 office_decided).
  reflexivity.
Defined.

(** ** Counts in [get_attendance] *)

Lemma count_where_flag flag eid since d :
  count_where
    (fun a => bool_decide (Attendance.employee_id a = eid)
              && (since <=? Attendance.date a)
              && bool_decide (flag a = Some true))
    (attendance d)
  = size (flagged_since flag eid since d).
Proof.
  rewrite count_where_size. unfold flagged_since. f_equal.
  apply map_filter_ext. intros i a _. simpl.
  rewrite !andb_true_iff, !bool_decide_eq_true, Z.leb_le. tauto.
Qed.

(** When no attendance row is dated after [today], the rows counted are
    those of the window from [today - 365] to [today]. *)
Lemma flagged_since_window flag eid today d :
  (forall i a, attendance d !! i = Some a -> Attendance.date a <= today) ->
  flagged_since flag eid (today - 365) d
  = filter (fun kv : Z * Attendance.t =>
              Attendance.employee_id kv.2 = eid
              /\ today - 365 <= Attendance.date kv.2 <= today
              /\ flag kv.2 = Some true)
           (attendance d).
Proof.
  intros Hup. unfold flagged_since. apply map_filter_ext.
  intros i a Ha. simpl. specialize (Hup i a Ha). intuition lia.
Qed.

Lemma attendance_row_counts year_of today d r v :
  attendance_row year_of today d r = Some v ->
  exists emp,
    employees d !! Attendance.employee_id r = Some emp
    /\ av_id v = Employee.employee_code emp
    /\ av_lateArrivals v
       = size (flagged_since Attendance.is_late (Attendance.employee_id r)
                 (today - 365) d)
    /\ av_earlyLeaves v
       = size (flagged_since Attendance.is_early_leave
                 (Attendance.employee_id r) (today - 365) d).
Proof.
  unfold attendance_row.
  destruct (employees d !! Attendance.employee_id r) as [emp|]; [|done].
  simpl. intros [= <-]. exists emp. simpl.
  by rewrite !count_where_flag.
Qed.

(** C8: [get_attendance] leaves the database as it was; in an authorised
    call every entry of the output belongs to one of today's attendance
    records whose employee exists, every such record has its entry, and the
    entry's late-arrival and early-leave counts are the numbers of
    attendance rows of that employee dated [today - 365] or later whose
    [is_late], respectively [is_early_leave], flag is true. *)
Theorem attendance_counts_are_window_counts year_of sess today d :
  (get_attendance year_of sess today d).2 = d
  /\ (hr_required sess = true ->
      exists out,
        (get_attendance year_of sess today d).1
        = Response (AttendanceBody out) 200
        /\ (forall v, v ∈ out ->
              exists rid r emp,
                attendance d !! rid = Some r
                /\ Attendance.date r = today
                /\ employees d !! Attendance.employee_id r = Some emp
                /\ av_id v = Employee.employee_code emp
                /\ av_lateArrivals v
                   = size (flagged_since Attendance.is_late
                             (Attendance.employee_id r) (today - 365) d)
                /\ av_earlyLeaves v
                   = size (flagged_since Attendance.is_early_leave
                             (Attendance.employee_id r) (today - 365) d))
        /\ (forall rid r emp,
              attendance d !! rid = Some r ->
              Attendance.date r = today ->
              employees d !! Attendance.employee_id r = Some emp ->
              exists v,
                v ∈ out
                /\ av_id v = Employee.employee_code emp
                /\ av_lateArrivals v
                   = size (flagged_since Attendance.is_late
                             (Attendance.employee_id r) (today - 365) d)
                /\ av_earlyLeaves v
                   = size (flagged_since Attendance.is_early_leave
                             (Attendance.employee_id r) (today - 365) d))).
Proof.
  unfold get_attendance. split; [by destruct (negb (hr_required sess))|].
  intros ->. simpl. eexists. split; [done|]. split.
  - intros v Hv. apply list_elem_of_omap in Hv as (r & Hr & Hrow).
    apply list_elem_of_filter in Hr as [Hdate Hr].
    apply list_elem_of_fmap in Hr as ([rid r'] & -> & Hr).
    apply elem_of_map_to_list in Hr. simpl in *.
    destruct (attendance_row_counts _ _ _ _ _ Hrow) as (emp & He & Hv).
    by exists rid, r', emp.
  - intros rid r emp Hr Hdate He.
    destruct (attendance_row year_of today d r) as [v|] eqn:Hrow.
    + exists v. split.
      * apply list_elem_of_omap. exists r. split; [|done].
        apply list_elem_of_filter. split; [done|].
        apply list_elem_of_fmap. exists (rid, r). split; [done|].
        by apply elem_of_map_to_list.
      * destruct (attendance_row_counts _ _ _ _ _ Hrow) as (emp' & He' & Hv).
        rewrite He in He'. by injection He' as <-.
    + unfold attendance_row in Hrow. by rewrite He in Hrow.
Qed.

Lemma attendance_counts_are_window_counts_witness :
  hr_required hr_session = true
  /\ exists out,
    (get_attendance (fun _ => 2024) hr_session 739047 office).1
    = Response (AttendanceBody out) 200
    /\ forall v, v ∈ out ->
         exists rid r emp,
           attendance office !! rid = Some r
           /\ Attendance.date r = 739047
           /\ employees office !! Attendance.employee_id r = Some emp
           /\ av_id v = Employee.employee_code emp
           /\ av_lateArrivals v
              = size (flagged_since Attendance.is_late
                        (Attendance.employee_id r) (739047 - 365) office)
           /\ av_earlyLeaves v
              = size (flagged_since Attendance.is_early_leave
                        (Attendance.employee_id r) (739047 - 365) office).
Proof.
  split; [reflexivity|].
  destruct (proj2 (attendance_counts_are_window_counts (fun _ => 2024)
                     hr_session 739047 office) eq_refl)
    as (out & H1 & H2 & _).
  exists out. split; [exact H1|exact H2].
Defined.

(** * Further properties *)

(** ** What [leave_detail] leaves alone *)

Lemma leave_detail_changes fails sess utcnow m k data d :
  (leave_detail fails sess utcnow m k data d).2 = d
  \/ exists lr lr',
       leave_requests d !! k = Some lr
       /\ m = PATCH
       /\ invalid_status (data_status data) = false
       /\ (leave_detail fails sess utcnow m k data d).1
          = (if fails Reload then database_error else leave_ok k lr')
       /\ (leave_detail fails sess utcnow m k data d).2
          = mkdb (if decide (normalized data = "approved")
                  then alter (Employee.set_status (Some "on-leave"))
                             (LeaveRequest.employee_id lr) (employees d)
                  else employees d)
                 (<[k := lr']> (leave_requests d))
                 (leave_balances d) (attendance d)
       /\ LeaveRequest.status lr' = Some (normalized data)
       /\ LeaveRequest.set_rejection_reason (LeaveRequest.rejection_reason lr)
            (LeaveRequest.set_approved_at (LeaveRequest.approved_at lr)
               (LeaveRequest.set_approved_by (LeaveRequest.approved_by lr)
                  (LeaveRequest.set_status (LeaveRequest.status lr) lr')))
          = lr
       /\ (normalized data <> "approved" ->
           LeaveRequest.approved_by lr' = LeaveRequest.approved_by lr
           /\ LeaveRequest.approved_at lr' = LeaveRequest.approved_at lr).
Proof.
  destruct m; [left; by rewrite get_raises|].
  destruct (invalid_status (data_status data)) eqn:H;
    [left; by rewrite patch_invalid|].
  destruct (fails GetLeaveRequest) eqn:F; [left; by rewrite patch_query_fails|].
  destruct (leave_requests d !! k) as [lr|] eqn:L;
    [|left; by rewrite patch_missing].
  destruct (fails Commit) eqn:G2.
  { left. destruct (decide (normalized data = "approved")).
    - by erewrite patch_approved_fails; eauto.
    - by erewrite patch_other_fails. }
  destruct (normalized_allowed data H) as [N|[N|N]].
  - destruct (fails GetEmployee) eqn:G1.
    { left. by erewrite patch_approved_fails; eauto. }
    right. eexists lr, _.
    rewrite (patch_approved fails sess utcnow k data d lr) by done.
    rewrite N. simpl. repeat split; try done. by destruct lr.
  - right. eexists lr, _.
    rewrite (patch_rejected fails sess utcnow k data d lr) by done.
    rewrite N. simpl. repeat split; try done. by destruct lr.
  - right. eexists lr, _.
    rewrite (patch_pending fails sess utcnow k data d lr) by done.
    rewrite N. simpl. repeat split; try done. by destruct lr.
Qed.

(** X1: a call of [leave_detail] creates and deletes no row and writes
    neither the ledger nor the attendance table; of the leave requests
    only the addressed one can change, of the employees only the one the
    addressed request belongs to; a call for an id without a row changes
    nothing. *)
Theorem leave_detail_frame fails sess utcnow m k data d :
  dom (leave_requests (leave_detail fails sess utcnow m k data d).2)
  = dom (leave_requests d)
  /\ dom (employees (leave_detail fails sess utcnow m k data d).2)
     = dom (employees d)
  /\ leave_balances (leave_detail fails sess utcnow m k data d).2
     = leave_balances d
  /\ attendance (leave_detail fails sess utcnow m k data d).2 = attendance d
  /\ (forall k', k' <> k ->
        leave_requests (leave_detail fails sess utcnow m k data d).2 !! k'
        = leave_requests d !! k')
  /\ (forall lr eid,
        leave_requests d !! k = Some lr ->
        eid <> LeaveRequest.employee_id lr ->
        employees (leave_detail fails sess utcnow m k data d).2 !! eid
        = employees d !! eid)
  /\ (leave_requests d !! k = None ->
      (leave_detail fails sess utcnow m k data d).2 = d).
Proof.
  destruct (leave_detail_changes fails sess utcnow m k data d)
    as [->|(lr & lr' & L & _ & _ & _ & -> & _)]; [done|].
  simpl. repeat split.
  - apply dom_insert_lookup_L. by rewrite L.
  - case_decide; [apply dom_alter_L|done].
  - intros k' Hk. by rewrite lookup_insert_ne.
  - intros lr0 eid L0 He. rewrite L in L0. injection L0 as <-.
    case_decide; [by rewrite lookup_alter_ne|done].
  - by rewrite L.
Qed.

Lemma leave_detail_frame_witness :
  leave_requests office_with_ravi_leave !! 7 = Some june_leave
  /\ 2 <> LeaveRequest.employee_id june_leave
  /\ leave_requests
       (leave_detail no_failure hr_session 1717400000 PATCH 7 approve
          office_with_ravi_leave).2 !! 9
     = leave_requests office_with_ravi_leave !! 9
  /\ employees
       (leave_detail no_failure hr_session 1717400000 PATCH 7 approve
          office_with_ravi_leave).2 !! 2
     = employees office_with_ravi_leave !! 2.
Proof.
  destruct (leave_detail_frame no_failure hr_session 1717400000 PATCH 7 approve
              office_with_ravi_leave) as (_ & _ & _ & _ & H5 & H6 & _).
  split; [reflexivity|]. split; [discriminate|]. split.
  - apply H5. discriminate.
  - apply (H6 june_leave); [reflexivity|discriminate].
Defined.

(** X2: a decision never changes to whom a request belongs, its leave
    type, its dates or its length; a decision other than an approval
    changes no employee and keeps [approved_by] and [approved_at] as they
    were, so a request rejected after its approval still names its
    approver. *)
Theorem decision_keeps_request_identity fails sess utcnow m k data d lr lr' :
  leave_requests d !! k = Some lr ->
  leave_requests (leave_detail fails sess utcnow m k data d).2 !! k = Some lr' ->
  (LeaveRequest.employee_id lr' = LeaveRequest.employee_id lr
   /\ LeaveRequest.leave_type_id lr' = LeaveRequest.leave_type_id lr
   /\ LeaveRequest.start_date lr' = LeaveRequest.start_date lr
   /\ LeaveRequest.end_date lr' = LeaveRequest.end_date lr
   /\ LeaveRequest.total_days lr' = LeaveRequest.total_days lr)
  /\ (normalized data <> "approved" ->
      employees (leave_detail fails sess utcnow m k data d).2 = employees d
      /\ LeaveRequest.approved_by lr' = LeaveRequest.approved_by lr
      /\ LeaveRequest.approved_at lr' = LeaveRequest.approved_at lr).
Proof.
  intros L L'.
  destruct (leave_detail_changes fails sess utcnow m k data d)
    as [E|(lr0 & lr1 & L0 & _ & _ & _ & E & _ & Hid & Hap)].
  - rewrite E, L in L'. injection L' as <-. rewrite E. done.
  - rewrite L in L0. injection L0 as <-.
    rewrite E in L'. simpl in L'. rewrite lookup_insert_eq in L'.
    injection L' as <-. rewrite E. simpl. split.
    + rewrite <- Hid. done.
    + intros N. rewrite decide_False by done. split; [done|]. by apply Hap.
Qed.

Lemma decision_keeps_request_identity_witness :
  leave_requests office_decided !! 7 = Some june_leave_approved
  /\ normalized reject <> "approved"
  /\ employees
       (leave_detail no_failure hr_session 1717500000 PATCH 7 reject
          office_decided).2 = employees office_decided
  /\ LeaveRequest.approved_by
       <$> leave_requests
             (leave_detail no_failure hr_session 1717500000 PATCH 7 reject
                office_decided).2 !! 7
     = Some (Some 5).
Proof.
  split; [reflexivity|]. split; [discriminate|].
  destruct (decision_keeps_request_identity no_failure hr_session 1717500000
              PATCH 7 reject office_decided june_leave_approved
              (LeaveRequest.mk 1 1 739047 739049 30 (Some "rejected") (Some 5)
                 (Some 1717400000) (Some "team is short-staffed")))
    as (_ & H); [reflexivity|reflexivity|].
  destruct H as (H1 & _); [discriminate|].
  split; [exact H1|reflexivity].
Defined.

(** X3: only a call whose commit succeeded changes the database.  A
    database that differs from the one before the call comes with the
    answer 200 or, when the reload of the row after the commit fails, with
    the 500 answer, and then the whole decision is committed all the same;
    after the 400, the 404 and the uncaught [NameError] and
    [OverflowError] the database is the one before the call. *)
Theorem only_commit_changes_database fails sess utcnow m k data d :
  (leave_detail fails sess utcnow m k data d).2 <> d ->
  (exists leave,
     (leave_detail fails sess utcnow m k data d).1
     = Response (LeaveBody leave) 200)
  \/ (fails Reload = true
      /\ (leave_detail fails sess utcnow m k data d).1 = database_error
      /\ (leave_detail fails sess utcnow m k data d).2
         = (leave_detail no_failure sess utcnow m k data d).2).
Proof.
  intros Hne.
  destruct (leave_detail_outcomes fails sess utcnow m k data d)
    as [E|(lr & lr' & emps & _ & E & En)]; [done|].
  rewrite E, En. simpl. destruct (fails Reload).
  - by right.
  - left. unfold leave_ok. by eexists.
Qed.

Lemma only_commit_changes_database_witness :
  (leave_detail (fun c => match c with Reload => true | _ => false end)
     hr_session 1717400000 PATCH 7 approve office).2 <> office
  /\ (leave_detail (fun c => match c with Reload => true | _ => false end)
        hr_session 1717400000 PATCH 7 approve office).1 = database_error
  /\ leave_requests
       (leave_detail (fun c => match c with Reload => true | _ => false end)
          hr_session 1717400000 PATCH 7 approve office).2 !! 7
     = Some june_leave_approved.
Proof.
  assert (H : (leave_detail
                 (fun c => match c with Reload => true | _ => false end)
                 hr_session 1717400000 PATCH 7 approve office).2 <> office).
  { intros E. apply (f_equal (fun x => leave_requests x !! 7)) in E.
    vm_compute in E. discriminate E. }
  split; [exact H|].
  destruct (only_commit_changes_database _ _ _ _ _ _ _ H)
    as [ [leave E]|(_ & E1 & E2)].
  - vm_compute in E. discriminate E.
  - split; [exact E1|]. rewrite E2. reflexivity.
Defined.

Lemma leave_detail_statuses fails sess utcnow m k data d :
  statuses_known d ->
  statuses_known (leave_detail fails sess utcnow m k data d).2.
Proof.
  intros Hd.
  destruct (leave_detail_changes fails sess utcnow m k data d)
    as [->|(lr & lr' & _ & _ & Hv & _ & -> & Hs & _)]; [done|].
  unfold statuses_known. simpl. apply map_Forall_insert_2; [|done].
  exists (normalized data). split; [done|].
  unfold allowed_status.
  destruct (normalized_allowed data Hv) as [-> | [-> | ->] ];
    repeat constructor.
Qed.

(** X4: the status column stays within approved, rejected and pending:
    when every leave request carries one of the three values, so does
    every leave request after any sequence of calls, whatever their
    bodies. *)
Theorem statuses_stay_known rqs d :
  statuses_known d -> statuses_known (serve_all rqs d).
Proof.
  revert d. unfold serve_all.
  induction rqs as [|rq rqs IH]; intros d Hd; [done|].
  cbn [foldl]. apply IH. by apply leave_detail_statuses.
Qed.

Lemma statuses_stay_known_witness :
  statuses_known office
  /\ statuses_known
       (serve_all
          [mkrequest no_failure hr_session 1717400000 PATCH 7 approve;
           mkrequest no_failure hr_session 1717500000 PATCH 7
             (mkpatch_data (Some "cancelled") None);
           mkrequest no_failure hr_session 1717600000 PATCH 7 reopen]
          office).
Proof.
  assert (H : statuses_known office).
  { unfold statuses_known, office. simpl. apply map_Forall_singleton.
    exists "pending". split; [reflexivity|]. unfold allowed_status.
    repeat constructor. }
  split; [exact H|]. exact (statuses_stay_known _ office H).
Defined.

(** ** What [list_employees] establishes and reports *)

Lemma covered_leave_requests today eid d d' :
  leave_requests d' = leave_requests d ->
  covered today eid d' <-> covered today eid d.
Proof. unfold covered. by intros ->. Qed.

Lemma reconciled_on_leave ids eid e :
  Employee.status (reconciled ids eid e) = Some "on-leave" <-> eid ∈ ids.
Proof.
  unfold reconciled. destruct e as [code first last st]. simpl.
  repeat case_decide; simpl; split; try done; congruence.
Qed.

(** X5: an authorised listing leaves the stored statuses consistent with
    the leave requests: afterwards an employee row reads on-leave exactly
    when an approved leave request of that employee covers today. *)
Theorem listing_restores_status_invariant sess today d eid e' :
  hr_required sess = true ->
  employees (list_employees sess today d).2 !! eid = Some e' ->
  Employee.status e' = Some "on-leave"
  <-> covered today eid (list_employees sess today d).2.
Proof.
  intros Hs He'.
  rewrite (covered_leave_requests today eid d)
    by apply list_employees_leave_requests.
  rewrite list_employees_lookup in He' by done.
  destruct (employees d !! eid) as [e|]; [|done].
  simpl in He'. injection He' as <-.
  by rewrite reconciled_on_leave, elem_of_on_leave_ids.
Qed.

Lemma listing_restores_status_invariant_witness :
  hr_required hr_session = true
  /\ employees (list_employees hr_session 739048 office_stale).2 !! 1
     = Some asha
  /\ (Employee.status asha = Some "on-leave"
      <-> covered 739048 1 (list_employees hr_session 739048 office_stale).2).
Proof.
  split; [reflexivity|]. split; [reflexivity|].
  apply (listing_restores_status_invariant hr_session 739048 office_stale 1
           asha); reflexivity.
Defined.

(** X6: a listing leaves the leave requests, the ledger and the
    attendance table as they were; no employee row appears or disappears,
    and code and names of every employee are kept; a call without an HR
    session answers 401 and changes nothing at all. *)
Theorem listing_frame sess today d :
  leave_requests (list_employees sess today d).2 = leave_requests d
  /\ leave_balances (list_employees sess today d).2 = leave_balances d
  /\ attendance (list_employees sess today d).2 = attendance d
  /\ dom (employees (list_employees sess today d).2) = dom (employees d)
  /\ (forall eid e e',
        employees d !! eid = Some e ->
        employees (list_employees sess today d).2 !! eid = Some e' ->
        Employee.set_status (Employee.status e') e = e')
  /\ (hr_required sess = false ->
      list_employees sess today d
      = (Response (ErrorBody "Unauthorized") 401, d)).
Proof.
  split; [apply list_employees_leave_requests|].
  destruct (hr_required sess) eqn:Hs.
  - assert (Hl := fun eid => list_employees_lookup sess today d eid Hs).
    unfold list_employees in *. rewrite Hs in *. simpl in *.
    repeat split; try by destruct (to_update _).
    + apply set_eq. intros eid. rewrite !elem_of_dom, Hl. apply fmap_is_Some.
    + intros eid e e' He He'. rewrite Hl, He in He'. simpl in He'.
      injection He' as <-. unfold reconciled. destruct e.
      by repeat case_decide.
  - unfold list_employees. rewrite Hs. simpl. repeat split; try done.
    intros eid e e' He He'. rewrite He in He'. injection He' as <-.
    by destruct e.
Qed.

Lemma listing_frame_witness :
  employees office_decided !! 1 = Some asha
  /\ employees (list_employees hr_session 739048 office_decided).2 !! 1
     = Some (Employee.set_status (Some "on-leave") asha)
  /\ Employee.set_status (Some "on-leave") asha
     = Employee.set_status (Some "on-leave") asha
  /\ hr_required (mksession None (Some "hr")) = false
  /\ list_employees (mksession None (Some "hr")) 739048 office_decided
     = (Response (ErrorBody "Unauthorized") 401, office_decided).
Proof.
  destruct (listing_frame hr_session 739048 office_decided)
    as (_ & _ & _ & _ & H5 & _).
  destruct (listing_frame (mksession None (Some "hr")) 739048 office_decided)
    as (_ & _ & _ & _ & _ & H6).
  split; [reflexivity|]. split; [reflexivity|]. split.
  - apply (H5 1 asha (Employee.set_status (Some "on-leave") asha));
      reflexivity.
  - split; [reflexivity|]. apply H6. reflexivity.
Defined.

Lemma step_out ids acc row :
  out (list_employees_step ids acc row) = out acc ++ [entry_of ids row].
Proof.
  destruct row as [eid e]. unfold list_employees_step, entry_of, status_out.
  simpl. by repeat case_decide.
Qed.

Lemma loop_out ids (l : list (Z * Employee.t)) : forall acc,
  out (foldl (list_employees_step ids) acc l) = out acc ++ (entry_of ids <$> l).
Proof.
  induction l as [|row l IH]; intros acc; cbn [foldl].
  - by rewrite app_nil_r.
  - rewrite IH, step_out, <- app_assoc. done.
Qed.

Lemma listed_entries sess today d :
  hr_required sess = true ->
  listed (list_employees sess today d).1
  = entry_of (on_leave_ids today d) <$> map_to_list (employees d).
Proof.
  intros Hs. unfold list_employees. rewrite Hs. simpl.
  unfold list_employees_loop. by rewrite loop_out.
Qed.

(** X7: an authorised listing has exactly one entry for every employee
    row; the entry carries the employee's code, and its status is
    on-leave when an approved leave request of the employee covers today
    and otherwise the stored status in lower case with spaces turned into
    hyphens, active standing in for a missing or empty one. *)
Theorem listing_has_one_entry_per_employee sess today d :
  hr_required sess = true ->
  NoDup (ev_pk <$> listed (list_employees sess today d).1)
  /\ (forall eid,
        eid ∈ ev_pk <$> listed (list_employees sess today d).1
        <-> is_Some (employees d !! eid))
  /\ (forall v,
        v ∈ listed (list_employees sess today d).1 ->
        exists e,
          employees d !! ev_pk v = Some e
          /\ ev_id v = Employee.employee_code e
          /\ (covered today (ev_pk v) d -> ev_status v = "on-leave")
          /\ (~ covered today (ev_pk v) d -> ev_status v = status_out e)).
Proof.
  intros Hs. rewrite listed_entries by done.
  assert (Hpk : ev_pk <$> (entry_of (on_leave_ids today d)
                             <$> map_to_list (employees d))
                = (map_to_list (employees d)).*1).
  { rewrite <- list_fmap_compose. by apply list_fmap_ext. }
  rewrite Hpk. split; [apply NoDup_fst_map_to_list|]. split.
  - intros eid. rewrite list_elem_of_fmap. split.
    + intros ([k e] & -> & Hin). apply elem_of_map_to_list in Hin.
      by exists e.
    + intros [e He]. exists (eid, e). split; [done|].
      by apply elem_of_map_to_list.
  - intros v ([k e] & -> & Hin)%list_elem_of_fmap.
    apply elem_of_map_to_list in Hin. exists e. simpl.
    rewrite <- elem_of_on_leave_ids. repeat split; try done.
    + intros Hc. by rewrite decide_True.
    + intros Hc. by rewrite decide_False.
Qed.

Lemma listing_has_one_entry_per_employee_witness :
  hr_required hr_session = true
  /\ NoDup (ev_pk <$> listed (list_employees hr_session 739048 office_decided).1)
  /\ (2 ∈ ev_pk <$> listed (list_employees hr_session 739048 office_decided).1
      <-> is_Some (employees office_decided !! 2)).
Proof.
  split; [reflexivity|].
  destruct (listing_has_one_entry_per_employee hr_session 739048 office_decided)
    as (H1 & H2 & _); [reflexivity|].
  split; [exact H1|apply H2].
Defined.

Lemma not_covered_computed today eid d :
  bool_decide (eid ∈ on_leave_ids today d) = false -> ~ covered today eid d.
Proof.
  intros H Hc. apply elem_of_on_leave_ids in Hc.
  by apply bool_decide_eq_false in H.
Qed.

(** X8: the listing that corrects a stale on-leave status still reports
    it.  For an employee stored as on-leave whom no approved leave request
    covers today, an authorised listing sets the stored status to active
    but its own entry for the employee says on-leave; the entry of the
    next listing says active. *)
Theorem stale_on_leave_is_reported_once sess today d eid e :
  hr_required sess = true ->
  employees d !! eid = Some e ->
  Employee.status e = Some "on-leave" ->
  ~ covered today eid d ->
  (exists v, v ∈ listed (list_employees sess today d).1
             /\ ev_pk v = eid /\ ev_status v = "on-leave")
  /\ employees (list_employees sess today d).2 !! eid
     = Some (Employee.set_status (Some "active") e)
  /\ (exists v,
        v ∈ listed (list_employees sess today
                      (list_employees sess today d).2).1
        /\ ev_pk v = eid /\ ev_status v = "active").
Proof.
  intros Hs He Hst Hc. rewrite <- elem_of_on_leave_ids in Hc.
  assert (He' : employees (list_employees sess today d).2 !! eid
                = Some (Employee.set_status (Some "active") e)).
  { rewrite list_employees_lookup, He by done. simpl. unfold reconciled.
    by rewrite decide_False, decide_True. }
  split; [|split; [exact He'|] ].
  - exists (entry_of (on_leave_ids today d) (eid, e)). split.
    + rewrite listed_entries by done. apply list_elem_of_fmap.
      exists (eid, e). split; [done|]. by apply elem_of_map_to_list.
    + unfold entry_of, status_out. simpl. rewrite decide_False, Hst by done.
      done.
  - exists (entry_of (on_leave_ids today (list_employees sess today d).2)
              (eid, Employee.set_status (Some "active") e)). split.
    + rewrite listed_entries by done. apply list_elem_of_fmap.
      eexists (eid, _). split; [done|]. by apply elem_of_map_to_list.
    + rewrite (on_leave_ids_leave_requests today d)
        by apply list_employees_leave_requests.
      unfold entry_of. simpl. by rewrite decide_False.
Qed.

Lemma stale_on_leave_is_reported_once_witness :
  hr_required hr_session = true
  /\ employees office_stale !! 1
     = Some (Employee.set_status (Some "on-leave") asha)
  /\ ~ covered 739048 1 office_stale
  /\ (exists v, v ∈ listed (list_employees hr_session 739048 office_stale).1
                /\ ev_pk v = 1 /\ ev_status v = "on-leave")
  /\ (exists v,
        v ∈ listed (list_employees hr_session 739048
                      (list_employees hr_session 739048 office_stale).2).1
        /\ ev_pk v = 1 /\ ev_status v = "active").
Proof.
  assert (Hc : ~ covered 739048 1 office_stale)
    by (apply not_covered_computed; reflexivity).
  destruct (stale_on_leave_is_reported_once hr_session 739048 office_stale 1
              (Employee.set_status (Some "on-leave") asha))
    as (H1 & _ & H3); [reflexivity|reflexivity|reflexivity|exact Hc|].
  split; [reflexivity|]. split; [reflexivity|]. split; [exact Hc|].
  split; [exact H1|exact H3].
Defined.

(** X9: approval followed by a listing overwrites any status.  When a
    request is approved and an authorised listing then runs on a day that
    no approved request of the employee covers, the employee's status ends
    as active, whatever it was before the approval, inactive or terminated
    included. *)
Theorem approval_then_listing_activates
    sess sess' utcnow today k data d lr e :
  leave_requests d !! k = Some lr ->
  employees d !! LeaveRequest.employee_id lr = Some e ->
  normalized data = "approved" ->
  hr_required sess' = true ->
  ~ covered today (LeaveRequest.employee_id lr)
      (leave_detail no_failure sess utcnow PATCH k data d).2 ->
  employees
    (list_employees sess' today
       (leave_detail no_failure sess utcnow PATCH k data d).2).2
    !! LeaveRequest.employee_id lr
  = Some (Employee.set_status (Some "active") e).
Proof.
  intros L He N Hs Hc. rewrite <- elem_of_on_leave_ids in Hc.
  rewrite list_employees_lookup by done.
  assert (He1 : employees (leave_detail no_failure sess utcnow PATCH k data d).2
                !! LeaveRequest.employee_id lr
                = Some (Employee.set_status (Some "on-leave") e)).
  { rewrite (patch_approved no_failure sess utcnow k data d lr);
      [|apply normalized_valid; auto|done..].
    simpl. by rewrite lookup_alter_eq, He. }
  rewrite He1. simpl. unfold reconciled.
  rewrite decide_False, decide_True by done. by destruct e.
Qed.

Lemma approval_then_listing_activates_witness :
  leave_requests office_with_ravi_leave !! 9 = Some ravi_leave
  /\ employees office_with_ravi_leave !! 2 = Some ravi
  /\ Employee.status ravi = Some "inactive"
  /\ ~ covered 739048 2
        (leave_detail no_failure hr_session 1717400000 PATCH 9 approve
           office_with_ravi_leave).2
  /\ employees
       (list_employees hr_session 739048
          (leave_detail no_failure hr_session 1717400000 PATCH 9 approve
             office_with_ravi_leave).2).2 !! 2
     = Some (Employee.set_status (Some "active") ravi).
Proof.
  assert (Hc : ~ covered 739048 2
                 (leave_detail no_failure hr_session 1717400000 PATCH 9
                    approve office_with_ravi_leave).2)
    by (apply not_covered_computed; by vm_compute).
  split; [reflexivity|]. split; [reflexivity|]. split; [reflexivity|].
  split; [exact Hc|].
  apply (approval_then_listing_activates hr_session hr_session 1717400000
           739048 9 approve office_with_ravi_leave ravi_leave ravi);
    [reflexivity|reflexivity|reflexivity|reflexivity|exact Hc].
Defined.

(** X17: a listing of a consistent database writes nothing: when every
    employee row reads on-leave exactly if an approved leave request of
    the employee covers today, the loop leaves [to_update] false, no
    commit takes place and the database after the call is the one before
    it. *)
Theorem consistent_listing_writes_nothing sess today d :
  (forall eid e,
     employees d !! eid = Some e ->
     Employee.status e = Some "on-leave" <-> covered today eid d) ->
  to_update (list_employees_loop today d) = false
  /\ (list_employees sess today d).2 = d.
Proof.
  intros Hinv.
  assert (T : to_update (list_employees_loop today d) = false).
  { unfold list_employees_loop. rewrite loop_flag. simpl.
    apply bool_decide_eq_false. intros ([eid e] & Hin & Hne)%Exists_exists.
    apply elem_of_map_to_list in Hin. simpl in Hne. apply Hne.
    specialize (Hinv eid e Hin). rewrite <- elem_of_on_leave_ids in Hinv.
    unfold reconciled. repeat case_decide; tauto. }
  split; [exact T|].
  unfold list_employees. destruct (negb (hr_required sess)); [done|].
  simpl. by rewrite T.
Qed.

Lemma consistent_listing_writes_nothing_witness :
  (forall eid e,
     employees office !! eid = Some e ->
     Employee.status e = Some "on-leave" <-> covered 739048 eid office)
  /\ (list_employees hr_session 739048 office).2 = office.
Proof.
  assert (H : forall eid e,
            employees office !! eid = Some e ->
            Employee.status e = Some "on-leave" <-> covered 739048 eid office).
  { intros eid e He. split.
    - intros Hs. exfalso.
      destruct (decide (eid = 1)) as [->|]; [by injection He as <-|].
      destruct (decide (eid = 2)) as [->|]; [by injection He as <-|].
      unfold office in He. simpl in He.
      by rewrite lookup_insert_ne, lookup_singleton_ne in He.
    - intros Hc. exfalso. revert Hc. apply not_covered_computed.
      apply bool_decide_eq_false. unfold on_leave_ids.
      intros Hin%elem_of_list_to_set. revert Hin.
      by vm_compute; intros ?%elem_of_nil. }
  split; [exact H|].
  exact (proj2 (consistent_listing_writes_nothing hr_session 739048 office H)).
Defined.

(** ** [hr_stats] beside the other views *)

Lemma size_list_to_set_le (l : list Z) :
  (size (list_to_set l : gset Z) <= length l)%nat.
Proof.
  induction l as [|x l IH].
  - rewrite list_to_set_nil, size_empty. done.
  - rewrite list_to_set_cons, size_union_alt, size_singleton. cbn [length].
    assert ((size (list_to_set l ∖ {[x]} : gset Z)
             <= size (list_to_set l : gset Z))%nat)
      by by apply subseteq_size, subseteq_difference_l.
    lia.
Qed.

Lemma on_leave_ids_le_count today d :
  (size (on_leave_ids today d)
   <= count_where (approved_covering today) (leave_requests d))%nat.
Proof.
  unfold on_leave_ids, count_where.
  etrans; [apply size_list_to_set_le|]. by rewrite length_fmap.
Qed.

Lemma stored_on_leave_le_ids sess today d :
  hr_required sess = true ->
  (size (stored_on_leave (list_employees sess today d).2)
   <= size (on_leave_ids today d))%nat.
Proof.
  intros Hs. rewrite <- (size_dom (D := gset Z)).
  apply subseteq_size. intros eid Hin.
  apply elem_of_dom in Hin as [e' He'].
  apply map_lookup_filter_Some in He' as [He' Hst]. simpl in Hst.
  rewrite list_employees_lookup in He' by done.
  destruct (employees d !! eid) as [e|]; [|done].
  simpl in He'. injection He' as <-. by apply reconciled_on_leave in Hst.
Qed.

(** X10: the dashboard counts requests, the listing employees.  After an
    authorised listing the number of employees stored as on-leave is at
    most the [onLeave] figure [hr_stats] gives for the same day, since
    that figure counts approved requests that cover the day, several of
    one employee included. *)
Theorem stored_on_leave_at_most_dashboard sess today departments d :
  hr_required sess = true ->
  exists n,
    on_leave_figure
      (hr_stats sess today departments (list_employees sess today d).2)
    = Some n
    /\ (size (stored_on_leave (list_employees sess today d).2) <= n)%nat.
Proof.
  intros Hs. unfold hr_stats. rewrite Hs. simpl. eexists. split; [done|].
  etrans; [by apply stored_on_leave_le_ids|].
  rewrite list_employees_leave_requests. apply on_leave_ids_le_count.
Qed.

Lemma stored_on_leave_at_most_dashboard_witness :
  hr_required hr_session = true
  /\ exists n,
    on_leave_figure
      (hr_stats hr_session 739048 ∅
         (list_employees hr_session 739048 office_decided).2)
    = Some n
    /\ (size (stored_on_leave
                (list_employees hr_session 739048 office_decided).2)
        <= n)%nat.
Proof.
  split; [reflexivity|].
  apply (stored_on_leave_at_most_dashboard hr_session 739048 ∅ office_decided).
  reflexivity.
Defined.

Lemma count_where_insert_new {A} (P : A -> bool) (m : gmap Z A) k x y :
  m !! k = Some x -> P x = false -> P y = true ->
  count_where P (<[k := y]> m) = S (count_where P m).
Proof.
  intros Hk Hx Hy. rewrite !count_where_size.
  rewrite map_filter_insert_True by done.
  apply map_size_insert_None. apply map_lookup_filter_None. right.
  intros x' Hx'. rewrite Hk in Hx'. injection Hx' as <-. simpl. by rewrite Hx.
Qed.

(** X11: an approval that takes effect today shows on the dashboard at
    once: when a request that is not yet approved and whose dates cover
    today is approved, the [onLeave] figure of [hr_stats] goes up by
    exactly one. *)
Theorem approval_raises_dashboard_count
    sess sess' utcnow today departments k data d lr :
  leave_requests d !! k = Some lr ->
  LeaveRequest.status lr <> Some "approved" ->
  LeaveRequest.start_date lr <= today <= LeaveRequest.end_date lr ->
  normalized data = "approved" ->
  hr_required sess' = true ->
  exists n,
    on_leave_figure (hr_stats sess' today departments d) = Some n
    /\ on_leave_figure
         (hr_stats sess' today departments
            (leave_detail no_failure sess utcnow PATCH k data d).2)
       = Some (S n).
Proof.
  intros L Hst Hd N Hs. unfold hr_stats. rewrite Hs. simpl.
  eexists. split; [done|]. f_equal.
  rewrite (patch_approved no_failure sess utcnow k data d lr);
    [|apply normalized_valid; auto|done..].
  simpl. apply (count_where_insert_new _ _ _ lr); [done| |].
  - unfold approved_covering. by rewrite bool_decide_eq_false_2.
  - unfold approved_covering. simpl. rewrite !andb_true_iff.
    repeat split; first [by apply bool_decide_eq_true_2|lia].
Qed.

Lemma approval_raises_dashboard_count_witness :
  leave_requests office !! 7 = Some june_leave
  /\ 739047 <= 739048 <= 739049
  /\ on_leave_figure (hr_stats hr_session 739048 ∅ office) = Some 0%nat
  /\ on_leave_figure
       (hr_stats hr_session 739048 ∅
          (leave_detail no_failure hr_session 1717400000 PATCH 7 approve
             office).2)
     = Some 1%nat.
Proof.
  split; [reflexivity|]. split; [lia|].
  destruct (approval_raises_dashboard_count hr_session hr_session 1717400000
              739048 ∅ 7 approve office june_leave) as (n & H1 & H2);
    [reflexivity|discriminate|simpl; lia|reflexivity|reflexivity|].
  assert (n = 0%nat) as ->.
  { assert (E : on_leave_figure (hr_stats hr_session 739048 ∅ office)
                = Some 0%nat) by reflexivity.
    rewrite E in H1. by injection H1. }
  split; [exact H1|exact H2].
Defined.

(** ** [get_hr_user] *)

(** X12: [get_hr_user] answers 404 exactly when no user row has the role
    [hr] in exactly this spelling (a role stored as [HR], which
    [hr_required] accepts in a session, does not count); and a user it
    returns is a row of the table with that role. *)
Theorem hr_user_is_found_by_exact_role users :
  (get_hr_user users = HrResponse (HrError "No HR user found") 404
   <-> forall uid u, users !! uid = Some u -> User.role u <> "hr")
  /\ (forall uid u,
        get_hr_user users = HrResponse (UserBody uid u) 200 ->
        users !! uid = Some u /\ User.role u = "hr").
Proof.
  unfold get_hr_user.
  destruct (filter (fun kv : Z * User.t => User.role kv.2 = "hr")
              (map_to_list users)) as [|[uid0 u0] l] eqn:E.
  - split; [|done]. split; [|done]. intros _ uid u Hu Hr.
    assert (Hin : (uid, u) ∈ filter (fun kv : Z * User.t => User.role kv.2 = "hr")
                    (map_to_list users)).
    { apply list_elem_of_filter. split; [done|]. by apply elem_of_map_to_list. }
    rewrite E in Hin. by apply elem_of_nil in Hin.
  - assert (Hin : (uid0, u0) ∈ filter
                    (fun kv : Z * User.t => User.role kv.2 = "hr")
                    (map_to_list users)) by (rewrite E; left).
    apply list_elem_of_filter in Hin as [Hr Hin].
    apply elem_of_map_to_list in Hin. split.
    + split; [done|]. intros H. by destruct (H uid0 u0 Hin).
    + by intros uid u [= <- <-].
Qed.

Lemma hr_user_is_found_by_exact_role_witness :
  get_hr_user staff
  = HrResponse (UserBody 6 (User.mk "hr" "Kiran" "kiran@example.org")) 200
  /\ staff !! 6 = Some (User.mk "hr" "Kiran" "kiran@example.org")
  /\ User.role (User.mk "hr" "Kiran" "kiran@example.org") = "hr".
Proof.
  split; [reflexivity|].
  apply (proj2 (hr_user_is_found_by_exact_role staff)). reflexivity.
Defined.

(** ** [create_employee] *)

Lemma employee_kwargs_invalid c data kwargs :
  employee_kwargs c data = inr kwargs ->
  invalid_keyword employee_attributes kwargs = Some "designation".
Proof.
  unfold employee_kwargs, subscript.
  repeat (match goal with
          | |- context [data !! ?key] => destruct (data !! key)
          end; [|done]).
  by intros [= <-].
Qed.

Lemma employee_kwargs_present c data :
  (forall key, key ∈ create_employee_keys -> is_Some (data !! key)) ->
  exists kwargs, employee_kwargs c data = inr kwargs.
Proof.
  intros H. unfold employee_kwargs, subscript.
  repeat (match goal with
          | |- context [data !! ?key] =>
            destruct (H key) as [? ->];
              [unfold create_employee_keys; repeat constructor|]
          end).
  by eexists.
Qed.

(** X13: [create_employee] creates no employee.  Whatever the session,
    the JSON object and the tables, the answer is never 201 and the
    database is left as it was: the constructor is called with the keywords
    [designation], [pay_grade] and [date_of_joining], which are no
    attributes of [Employee].  With an HR session, an existing candidate
    and all five subscripted keys present the view raises [TypeError] for
    [designation]. *)
Theorem create_employee_never_creates
    pk_of_json insert_employee sess data candidates d :
  (create_employee pk_of_json insert_employee sess data candidates d).2 = d
  /\ (forall body,
        (create_employee pk_of_json insert_employee sess data candidates d).1
        <> HrResponse body 201)
  /\ (hr_required sess = true ->
      is_Some (get_candidate pk_of_json data candidates) ->
      (forall key, key ∈ create_employee_keys -> is_Some (data !! key)) ->
      (create_employee pk_of_json insert_employee sess data candidates d).1
      = HrUnhandled (TypeError "designation")).
Proof.
  unfold create_employee.
  destruct (hr_required sess); simpl; [|by repeat split].
  destruct (get_candidate pk_of_json data candidates) as [c|];
    [|repeat split; [done|by intros _ [? ?] ] ].
  destruct (employee_kwargs c data) as [e|kwargs] eqn:K.
  - repeat split; [done|]. intros _ _ H.
    destruct (employee_kwargs_present c data H) as [kw Hkw]. congruence.
  - rewrite (employee_kwargs_invalid c data kwargs K). by repeat split.
Qed.

Lemma create_employee_never_creates_witness :
  hr_required hr_session = true
  /\ is_Some (get_candidate (fun v => match v with JNum n => Some n | _ => None end)
                new_hire {[3 := CandidateProfile.mk (Some 8)]})
  /\ (create_employee (fun v => match v with JNum n => Some n | _ => None end)
        (fun _ d => (0, d)) hr_session new_hire
        {[3 := CandidateProfile.mk (Some 8)]} office).1
     = HrUnhandled (TypeError "designation").
Proof.
  assert (Hc : is_Some (get_candidate
                          (fun v => match v with JNum n => Some n | _ => None end)
                          new_hire {[3 := CandidateProfile.mk (Some 8)]}))
    by (by eexists).
  split; [reflexivity|]. split; [exact Hc|].
  apply (proj2 (proj2 (create_employee_never_creates _ (fun _ d => (0, d))
                         hr_session new_hire
                         {[3 := CandidateProfile.mk (Some 8)]} office)));
    [reflexivity|exact Hc|].
  intros key Hkey. unfold create_employee_keys in Hkey.
  repeat (apply elem_of_cons in Hkey as [-> | Hkey]; [by eexists|]).
  by apply elem_of_nil in Hkey.
Defined.

(** ** More of [get_attendance] *)

Lemma length_omap_le {A B} (f : A -> option B) (l : list A) :
  (length (omap f l) <= length l)%nat.
Proof.
  induction l as [|x l IH]; [done|]. cbn [omap list_omap length].
  destruct (f x); cbn [length]; lia.
Qed.

Lemma size_flagged_pos flag eid since d rid r :
  attendance d !! rid = Some r ->
  Attendance.employee_id r = eid ->
  since <= Attendance.date r ->
  flag r = Some true ->
  (1 <= size (flagged_since flag eid since d))%nat.
Proof.
  intros Hr He Hd Hf.
  assert (Hin : flagged_since flag eid since d !! rid = Some r).
  { unfold flagged_since. by apply map_lookup_filter_Some. }
  destruct (size (flagged_since flag eid since d)) eqn:E; [|lia].
  apply map_size_empty_inv in E. by rewrite E in Hin.
Qed.

(** X14: today's own record counts.  In an authorised call, a record of
    today that is flagged late has an entry whose late-arrival count is at
    least one, and one flagged as an early leave has an entry whose
    early-leave count is at least one; a record whose employee row is
    missing has no entry at all, so the output is never longer than the
    list of today's records. *)
Theorem todays_flags_are_counted year_of sess today d :
  hr_required sess = true ->
  (forall rid r emp,
     attendance d !! rid = Some r ->
     Attendance.date r = today ->
     employees d !! Attendance.employee_id r = Some emp ->
     exists v,
       v ∈ attendance_listed (get_attendance year_of sess today d).1
       /\ av_id v = Employee.employee_code emp
       /\ (Attendance.is_late r = Some true -> (1 <= av_lateArrivals v)%nat)
       /\ (Attendance.is_early_leave r = Some true ->
           (1 <= av_earlyLeaves v)%nat))
  /\ (length (attendance_listed (get_attendance year_of sess today d).1)
      <= length (filter (fun r => Attendance.date r = today)
                        (map_to_list (attendance d)).*2))%nat.
Proof.
  intros Hs. unfold get_attendance. rewrite Hs. simpl. split.
  - intros rid r emp Hr Hdate He.
    destruct (attendance_row year_of today d r) as [v|] eqn:Hrow.
    + exists v. split.
      * apply list_elem_of_omap. exists r. split; [|done].
        apply list_elem_of_filter. split; [done|].
        apply list_elem_of_fmap. exists (rid, r). split; [done|].
        by apply elem_of_map_to_list.
      * destruct (attendance_row_counts _ _ _ _ _ Hrow)
          as (emp' & He' & Hid & Hl & Hea).
        rewrite He in He'. injection He' as <-. split; [done|].
        rewrite Hl, Hea.
        split; intros Hf; apply (size_flagged_pos _ _ _ _ rid r);
          try done; lia.
    + unfold attendance_row in Hrow. by rewrite He in Hrow.
  - apply length_omap_le.
Qed.

Lemma todays_flags_are_counted_witness :
  hr_required hr_session = true
  /\ attendance office !! 1
     = Some (Attendance.mk 1 739047 "late" (Some true) (Some false))
  /\ employees office !! 1 = Some asha
  /\ exists v,
    v ∈ attendance_listed
          (get_attendance (fun _ => 2024) hr_session 739047 office).1
    /\ av_id v = "EMP001"
    /\ (1 <= av_lateArrivals v)%nat.
Proof.
  split; [reflexivity|]. split; [reflexivity|]. split; [reflexivity|].
  destruct (proj1 (todays_flags_are_counted (fun _ => 2024) hr_session 739047
                     office eq_refl)
              1 (Attendance.mk 1 739047 "late" (Some true) (Some false)) asha)
    as (v & Hv & Hid & Hl & _); [reflexivity|reflexivity|reflexivity|].
  exists v. split; [exact Hv|]. split; [exact Hid|]. by apply Hl.
Defined.

(** ** [ensure_db_columns.py] *)

Section Script.

Variable also_refused : string -> list string -> string -> bool.

Lemma find_table_info s table :
  Sqlite.table_info s table
  = from_option snd [] (Sqlite.find_table s table).
Proof.
  induction s as [|[t0 columns] s IH]; simpl; [done|].
  by destruct (Sqlite.same_name t0 table).
Qed.

Lemma add_column_info s table column s' :
  Sqlite.add_column also_refused s table column = Some s' ->
  Sqlite.table_info s' table = Sqlite.table_info s table ++ [column]
  /\ forall t, Sqlite.table_info s' t = Sqlite.table_info s t
               \/ Sqlite.table_info s' t = Sqlite.table_info s t ++ [column].
Proof.
  revert s'. induction s as [|[t0 columns] s IH]; intros s'; simpl; [done|].
  destruct (Sqlite.same_name t0 table) eqn:E.
  - destruct (_ || _); [done|]. intros [= <-]. simpl.
    rewrite E. split; [done|]. intros t.
    destruct (Sqlite.same_name t0 t); auto.
  - destruct (Sqlite.add_column also_refused s table column) as [s''|];
      [|done].
    simpl. intros [= <-]. simpl. rewrite E.
    destruct (IH s'' eq_refl) as [H1 H2]. split; [done|]. intros t.
    destruct (Sqlite.same_name t0 t); auto.
Qed.

Lemma ensure_column_spec table column changes s changes' s' :
  ensure_column also_refused table column (changes, s) = Some (changes', s') ->
  has_column s' table column = true
  /\ (forall t, Sqlite.table_info s t `prefix_of` Sqlite.table_info s' t)
  /\ (has_column s table column = true -> changes' = changes /\ s' = s).
Proof.
  unfold ensure_column.
  destruct (has_column s table column) eqn:H; simpl.
  - by intros [= <- <-].
  - destruct (Sqlite.add_column also_refused s table column) as [s1|] eqn:A;
      [|done].
    simpl. intros [= <- <-].
    destruct (add_column_info _ _ _ _ A) as [H1 H2]. split; [|split; [|done] ].
    + unfold has_column. rewrite H1. apply bool_decide_eq_true.
      apply elem_of_app. right. by left.
    + intros t. destruct (H2 t) as [-> | ->]; [done|]. by apply prefix_app_r.
Qed.

Lemma has_column_prefix s s' table column :
  Sqlite.table_info s table `prefix_of` Sqlite.table_info s' table ->
  has_column s table column = true -> has_column s' table column = true.
Proof.
  unfold has_column. intros [l ->] H. apply bool_decide_eq_true in H.
  apply bool_decide_eq_true, elem_of_app. by left.
Qed.

(** X15: when the script runs to its end, [employees] has a column
    [department] and [departments] a column [color], and every table keeps
    the columns it had, in their order, new columns coming last; a second
    run finds both columns, adds nothing and leaves the schema as it is. *)
Theorem ensure_db_columns_adds_once s changes s' :
  ensure_db_columns also_refused s = (Finished changes, s') ->
  has_column s' "employees" "department" = true
  /\ has_column s' "departments" "color" = true
  /\ (forall t, Sqlite.table_info s t `prefix_of` Sqlite.table_info s' t)
  /\ ensure_db_columns also_refused s' = (Finished [], s').
Proof.
  unfold ensure_db_columns.
  destruct (ensure_column also_refused "employees" "department" ([], s))
    as [[changes1 s1]|] eqn:E1; [|done].
  destruct (ensure_column also_refused "departments" "color" (changes1, s1))
    as [[changes2 s2]|] eqn:E2; [|done].
  intros [= <- <-].
  destruct (ensure_column_spec _ _ _ _ _ _ E1) as (H1 & P1 & _).
  destruct (ensure_column_spec _ _ _ _ _ _ E2) as (H2 & P2 & _).
  assert (H1' : has_column s2 "employees" "department" = true)
    by by apply (has_column_prefix s1).
  split; [done|]. split; [done|]. split.
  - intros t. etrans; [apply P1|apply P2].
  - unfold ensure_column. rewrite H1'. simpl. by rewrite H2.
Qed.

Lemma add_column_none s table column :
  Sqlite.add_column also_refused s table column = None
  <-> match Sqlite.find_table s table with
      | None => True
      | Some (t, columns) =>
        existsb (Sqlite.same_name column) columns = true
        \/ also_refused t columns column = true
      end.
Proof.
  induction s as [|[t0 columns] s IH]; simpl; [done|].
  destruct (Sqlite.same_name t0 table) eqn:E; simpl.
  - destruct (existsb (Sqlite.same_name column) columns);
      destruct (also_refused t0 columns column); simpl; intuition congruence.
  - destruct (Sqlite.add_column also_refused s table column) as [s''|]; simpl.
    + split; [done|]. intros H. by apply IH in H.
    + split; [|done]. intros _. by apply IH.
Qed.

Lemma add_column_other s table column s' table' :
  (forall t, Sqlite.same_name t table = true ->
             Sqlite.same_name t table' = false) ->
  Sqlite.add_column also_refused s table column = Some s' ->
  Sqlite.find_table s' table' = Sqlite.find_table s table'.
Proof.
  intros Hd. revert s'.
  induction s as [|[t0 columns] s IH]; intros s'; simpl; [done|].
  destruct (Sqlite.same_name t0 table) eqn:E.
  - destruct (_ || _); [done|]. intros [= <-]. simpl.
    by rewrite (Hd t0 E).
  - destruct (Sqlite.add_column also_refused s table column) as [s''|];
      [|done].
    simpl. intros [= <-]. simpl. by rewrite (IH s'' eq_refl).
Qed.

Lemma employees_is_not_departments t :
  Sqlite.same_name t "employees" = true ->
  Sqlite.same_name t "departments" = false.
Proof.
  unfold Sqlite.same_name. intros H. apply bool_decide_eq_true in H.
  apply bool_decide_eq_false. by rewrite H.
Qed.

(** X16: the script raises exactly when one of its two columns has to be
    added and SQLite refuses: the table is missing, it has a column whose
    name differs from the wanted one only in the case of its letters
    (which [has_column] does not see and SQLite takes for a duplicate), or
    one of SQLite's further grounds holds.  When only the second column is
    refused, the first one has been added and stays. *)
Theorem ensure_db_columns_raises s :
  ((ensure_db_columns also_refused s).1 = OperationalError
   <-> blocked also_refused s "employees" "department"
       \/ blocked also_refused s "departments" "color")
  /\ ((ensure_db_columns also_refused s).1 = OperationalError ->
      ~ blocked also_refused s "employees" "department" ->
      has_column (ensure_db_columns also_refused s).2 "employees" "department"
      = true).
Proof.
  unfold ensure_db_columns, ensure_column, blocked.
  rewrite <- !add_column_none.
  destruct (has_column s "employees" "department") eqn:H1; simpl.
  - destruct (has_column s "departments" "color") eqn:H2; simpl;
      [intuition congruence|].
    destruct (Sqlite.add_column also_refused s "departments" "color")
      as [s2|] eqn:A2; simpl; intuition congruence.
  - destruct (Sqlite.add_column also_refused s "employees" "department")
      as [s1|] eqn:A1; simpl; [|intuition congruence].
    destruct (add_column_info _ _ _ _ A1) as [Hi _].
    assert (Hf := add_column_other _ _ _ _ "departments"
                    employees_is_not_departments A1).
    assert (Hc : has_column s1 "departments" "color"
                 = has_column s "departments" "color")
      by (unfold has_column; by rewrite !find_table_info, Hf).
    assert (Ha : Sqlite.add_column also_refused s1 "departments" "color" = None
                 <-> Sqlite.add_column also_refused s "departments" "color"
                     = None)
      by (by rewrite !add_column_none, Hf).
    assert (Hd : has_column s1 "employees" "department" = true).
    { unfold has_column. rewrite Hi. apply bool_decide_eq_true.
      apply elem_of_app. right. by left. }
    rewrite Hc.
    destruct (has_column s "departments" "color") eqn:H2; simpl;
      [intuition congruence|].
    destruct (Sqlite.add_column also_refused s1 "departments" "color")
      as [s2|] eqn:A2; simpl; intuition congruence.
Qed.

End Script.

Lemma ensure_db_columns_adds_once_witness :
  ensure_db_columns plain old_schema
  = (Finished ["employees.department"; "departments.color"],
     [("users", ["id"; "role"; "name"]);
      ("employees", ["id"; "employee_id"; "first_name"; "department"]);
      ("departments", ["id"; "name"; "color"])])
  /\ ensure_db_columns plain
       [("users", ["id"; "role"; "name"]);
        ("employees", ["id"; "employee_id"; "first_name"; "department"]);
        ("departments", ["id"; "name"; "color"])]
     = (Finished [],
        [("users", ["id"; "role"; "name"]);
         ("employees", ["id"; "employee_id"; "first_name"; "department"]);
         ("departments", ["id"; "name"; "color"])]).
Proof.
  split; [reflexivity|].
  apply (ensure_db_columns_adds_once plain old_schema
           ["employees.department"; "departments.color"]).
  reflexivity.
Defined.

Lemma ensure_db_columns_raises_witness :
  blocked plain [("employees", ["id"; "Department"]); ("departments", ["id"])]
          "employees" "department"
  /\ (ensure_db_columns plain
        [("employees", ["id"; "Department"]); ("departments", ["id"])]).1
     = OperationalError
  /\ ~ blocked plain [("employees", ["id"])] "employees" "department"
  /\ (ensure_db_columns plain [("employees", ["id"])]).1 = OperationalError
  /\ has_column (ensure_db_columns plain [("employees", ["id"])]).2
       "employees" "department" = true.
Proof.
  assert (B : blocked plain
                [("employees", ["id"; "Department"]); ("departments", ["id"])]
                "employees" "department").
  { split; [reflexivity|]. left. reflexivity. }
  assert (N : ~ blocked plain [("employees", ["id"])] "employees" "department").
  { intros [_ [H|H] ]; discriminate H. }
  split; [exact B|]. split.
  - apply (proj1 (ensure_db_columns_raises plain _)). left. exact B.
  - split; [exact N|]. split; [reflexivity|].
    apply (proj2 (ensure_db_columns_raises plain [("employees", ["id"])]));
      [reflexivity|exact N].
Defined.
